(** * Settlement and callback reconciliation of [api/handler/payment_handler.go]

    A shallow embedding of the payment handler: the signed pay URL
    ([PayQrcode] / [DoPay]), order creation ([PayQrcode], [Mobile]), the
    settlement routine [notify] and the four provider notification
    endpoints.  The database behind [h.DB], the clock, the provider
    services and the small helpers of [geekai/utils] are outside the file;
    they appear as explicit state, as per-call inputs or as fields of the
    [Runtime] class. *)

From Stdlib Require Import ZArith String List Ascii Bool Lia DecimalString.
Import ListNotations.

#[local] Open Scope string_scope.
#[local] Open Scope Z_scope.

(** ** SHA-256 (FIPS 180-4), the digest behind [utils.Sha256]

    Words are 32-bit integers carried in [Z]; every addition wraps. *)

Module SHA256.
Definition w32 (x : Z) : Z := x mod 2 ^ 32.
Definition add32 (a b : Z) : Z := w32 (a + b).
Definition rotr (n x : Z) : Z := Z.lor (Z.shiftr x n) (w32 (Z.shiftl x (32 - n))).
Definition Ch (x y z : Z) : Z := Z.lxor (Z.land x y) (Z.land (w32 (Z.lnot x)) z).
Definition Maj (x y z : Z) : Z := Z.lxor (Z.lxor (Z.land x y) (Z.land x z)) (Z.land y z).
Definition bsig0 (x : Z) : Z := Z.lxor (Z.lxor (rotr 2 x) (rotr 13 x)) (rotr 22 x).
Definition bsig1 (x : Z) : Z := Z.lxor (Z.lxor (rotr 6 x) (rotr 11 x)) (rotr 25 x).
Definition ssig0 (x : Z) : Z := Z.lxor (Z.lxor (rotr 7 x) (rotr 18 x)) (Z.shiftr x 3).
Definition ssig1 (x : Z) : Z := Z.lxor (Z.lxor (rotr 17 x) (rotr 19 x)) (Z.shiftr x 10).

(** The round constants are the first 32 bits of the fractional parts of
    the cube roots of the first 64 primes; the initial hash value comes
    from the square roots of the first 8. *)

Definition is_prime (n : nat) : bool :=
  forallb (fun d => negb (Nat.eqb (Nat.modulo n d) 0)) (seq 2 (n - 2)).

Definition primes : list Z :=
  map Z.of_nat (filter is_prime (seq 2 310)).

(* the largest [r + d] with [d < 2 ^ k] and [(r + d) ^ 3 <= n] *)
Fixpoint cube_root (k : nat) (n r : Z) : Z :=
  match k with
  | O => r
  | S k' =>
      let r' := r + 2 ^ Z.of_nat k' in
      cube_root k' n (if r' ^ 3 <=? n then r' else r)
  end.

Definition K : list Z :=
  Eval vm_compute in map (fun p => w32 (cube_root 40 (p * 2 ^ 96) 0)) primes.

Definition H0 : list Z :=
  Eval vm_compute in map (fun p => w32 (Z.sqrt (p * 2 ^ 64))) (firstn 8 primes).

Definition bytes_of_string (s : string) : list Z :=
  map (fun c => Z.of_N (N_of_ascii c)) (list_ascii_of_string s).

(* big-endian bytes of the [n] low-order bytes of [x] *)
Fixpoint be_bytes (n : nat) (x : Z) : list Z :=
  match n with
  | O => []
  | S n' => Z.shiftr x (8 * Z.of_nat n') mod 256 :: be_bytes n' x
  end.

Definition pad (msg : list Z) : list Z :=
  let len := Z.of_nat (length msg) in
  msg ++ [0x80] ++ repeat 0 (Z.to_nat ((55 - len) mod 64)) ++ be_bytes 8 (8 * len).

Fixpoint be_words (fuel : nat) (bs : list Z) : list Z :=
  match fuel, bs with
  | S f, b0 :: b1 :: b2 :: b3 :: rest =>
      (Z.shiftl b0 24 + Z.shiftl b1 16 + Z.shiftl b2 8 + b3) :: be_words f rest
  | _, _ => []
  end.

Fixpoint schedule (n : nat) (w : list Z) : list Z :=
  match n with
  | O => w
  | S n' =>
      let i := length w in
      let at_ k := nth (i - k) w 0 in
      schedule n' (w ++ [add32 (add32 (ssig1 (at_ 2%nat)) (at_ 7%nat))
                               (add32 (ssig0 (at_ 15%nat)) (at_ 16%nat))])
  end.

Definition round (st : list Z) (kw : Z * Z) : list Z :=
  match st with
  | [a; b; c; d; e; f; g; h] =>
      let t1 := add32 (add32 (add32 h (bsig1 e)) (add32 (Ch e f g) (fst kw))) (snd kw) in
      let t2 := add32 (bsig0 a) (Maj a b c) in
      [add32 t1 t2; a; b; c; add32 d t1; e; f; g]
  | _ => st
  end.

Definition compress (h : list Z) (block : list Z) : list Z :=
  let w := schedule 48 block in
  map (fun p => add32 (fst p) (snd p)) (combine h (fold_left round (combine K w) h)).

Fixpoint blocks (fuel : nat) (ws : list Z) : list (list Z) :=
  match fuel with
  | O => []
  | S f => match ws with
           | [] => []
           | _ => firstn 16 ws :: blocks f (skipn 16 ws)
           end
  end.

Definition digest (msg : list Z) : list Z :=
  let bs := pad msg in
  let ws := be_words (length bs) bs in
  fold_left compress (blocks (length ws) ws) H0.

Definition hex_digit (d : Z) : ascii :=
  if d <? 10 then ascii_of_N (Z.to_N (48 + d)) else ascii_of_N (Z.to_N (87 + d)).

Fixpoint hex_of_word (n : nat) (x : Z) : string :=
  match n with
  | O => EmptyString
  | S n' => String (hex_digit (Z.shiftr x (4 * Z.of_nat n') mod 16)) (hex_of_word n' x)
  end.

Definition hexdigest (s : string) : string :=
  String.concat "" (map (hex_of_word 8) (digest (bytes_of_string s))).

End SHA256.

(** ** Go values

    [int] and [int64] are 64-bit two's-complement integers: arithmetic on
    them wraps.  An [error] is its message; [nil] is [None]. *)

Definition wrap64 (x : Z) : Z := (x + 2 ^ 63) mod 2 ^ 64 - 2 ^ 63.
Definition int_add (a b : Z) : Z := wrap64 (a + b).
Definition int_sub (a b : Z) : Z := wrap64 (a - b).

(** [fmt.Sprintf("%d", n)] *)
Definition sprintf_d (n : Z) : string := NilZero.string_of_int (Z.to_int n).

Definition error : Type := string.

(** A [float64] is an IEEE-754 binary64 value, identified by its bit
    pattern; arithmetic and formatting on it are fields of [Runtime]. *)
Inductive float64 : Type :=
| Float64frombits (bits : Z).

(** ** [geekai/core/types] *)

Inductive OrderStatus : Type :=
| OrderNotPaid
| OrderScanned
| OrderPaidSuccess.

Definition OrderStatus_eqb (a b : OrderStatus) : bool :=
  match a, b with
  | OrderNotPaid, OrderNotPaid => true
  | OrderScanned, OrderScanned => true
  | OrderPaidSuccess, OrderPaidSuccess => true
  | _, _ => false
  end.

(** The numeric value of a status ([OrderNotPaid = 0], [OrderScanned = 1],
    [OrderPaidSuccess = 2]); the order of the payment flow. *)
Definition status_rank (s : OrderStatus) : Z :=
  match s with
  | OrderNotPaid => 0
  | OrderScanned => 1
  | OrderPaidSuccess => 2
  end.

Inductive PowerType : Type :=
| PowerRecharge.

Inductive PowerMark : Type :=
| PowerAdd.

Module OrderRemark.
Record t : Type := mk
  { Days : Z;
    Power : Z;
    Name : string;
    Price : float64;
    Discount : float64 }.
End OrderRemark.

(** ** [geekai/store/model] *)

Module Order.
Record t : Type := mk
  { Id : Z;
    UserId : Z;
    ProductId : Z;
    Username : string;
    OrderNo : string;
    TradeNo : string;
    Subject : string;
    Amount : float64;
    Status : OrderStatus;
    PayWay : string;
    PayType : string;
    Remark : string;
    PayTime : Z }.

Definition with_Id (v : Z) (o : t) : t :=
  mk v (UserId o) (ProductId o) (Username o) (OrderNo o) (TradeNo o)
     (Subject o) (Amount o) (Status o) (PayWay o) (PayType o) (Remark o) (PayTime o).
Definition with_Status (v : OrderStatus) (o : t) : t :=
  mk (Id o) (UserId o) (ProductId o) (Username o) (OrderNo o) (TradeNo o)
     (Subject o) (Amount o) v (PayWay o) (PayType o) (Remark o) (PayTime o).
Definition with_TradeNo (v : string) (o : t) : t :=
  mk (Id o) (UserId o) (ProductId o) (Username o) (OrderNo o) v
     (Subject o) (Amount o) (Status o) (PayWay o) (PayType o) (Remark o) (PayTime o).
Definition with_PayTime (v : Z) (o : t) : t :=
  mk (Id o) (UserId o) (ProductId o) (Username o) (OrderNo o) (TradeNo o)
     (Subject o) (Amount o) (Status o) (PayWay o) (PayType o) (Remark o) v.
End Order.

Module User.
Record t : Type := mk
  { Id : Z;
    Username : string;
    Power : Z;
    ExpiredTime : Z;
    Vip : bool }.

Definition with_Power (v : Z) (u : t) : t :=
  mk (Id u) (Username u) v (ExpiredTime u) (Vip u).
Definition with_ExpiredTime (v : Z) (u : t) : t :=
  mk (Id u) (Username u) (Power u) v (Vip u).
Definition with_Vip (v : bool) (u : t) : t :=
  mk (Id u) (Username u) (Power u) (ExpiredTime u) v.
End User.

Module Product.
Record t : Type := mk
  { Id : Z;
    Name : string;
    Price : float64;
    Discount : float64;
    Days : Z;
    Power : Z;
    Sales : Z }.

Definition with_Sales (v : Z) (p : t) : t :=
  mk (Id p) (Name p) (Price p) (Discount p) (Days p) (Power p) v.
End Product.

Module PowerLog.
Record t : Type := mk
  { UserId : Z;
    Username : string;
    Type_ : PowerType;
    Amount : Z;
    Balance : Z;
    Mark : PowerMark;
    Model : string;
    Remark : string;
    CreatedAt : Z }.
End PowerLog.

(** ** The store behind [h.DB]

    Four tables, rows in primary-key order.  A gorm call either fails with
    the error the run supplies for it ([fault]) or acts on the table:
    [First] returns the first matching row or [ErrRecordNotFound],
    [Updates] and [UpdateColumn] rewrite the rows with the model's primary
    key, [Create] appends a row.

    [Updates] with a struct assigns the columns whose field does not hold
    the zero value of its type (0, the empty string, [false],
    [OrderNotPaid]) and leaves the other columns of the row as they are.
    The primary key is the condition of the statement and is never
    assigned.  gorm refuses an update whose model has a zero primary key;
    that refusal, like every other failure of a call, is an error the run
    supplies. *)

Record DB : Type := mkDB
  { orders : list Order.t;
    users : list User.t;
    products : list Product.t;
    power_logs : list PowerLog.t }.

Definition ErrRecordNotFound : error := "record not found".

Definition find_order (db : DB) (orderNo : string) : option Order.t :=
  find (fun o => (Order.OrderNo o =? orderNo)%string) (orders db).

Definition find_user (db : DB) (id : Z) : option User.t :=
  find (fun u => User.Id u =? id) (users db).

Definition find_product (db : DB) (id : Z) : option Product.t :=
  find (fun p => Product.Id p =? id) (products db).

Definition First {A : Type} (fault : option error) (row : option A) : error + A :=
  match fault, row with
  | Some e, _ => inl e
  | None, Some r => inr r
  | None, None => inl ErrRecordNotFound
  end.

(** The value a column has after [Updates]: the field of the struct, or
    the stored one when that field is zero. *)
Definition assign_Z (field stored : Z) : Z :=
  if field =? 0 then stored else field.

Definition assign_string (field stored : string) : string :=
  if (field =? "")%string then stored else field.

Definition assign_bool (field stored : bool) : bool :=
  if field then true else stored.

Definition assign_float64 (field stored : float64) : float64 :=
  match field with
  | Float64frombits bits => if bits =? 0 then stored else field
  end.

Definition assign_status (field stored : OrderStatus) : OrderStatus :=
  match field with
  | OrderNotPaid => stored
  | _ => field
  end.

(** The row [row] after [Updates] with the struct [o] (resp. [u]). *)
Definition updated_order (o row : Order.t) : Order.t :=
  Order.mk (Order.Id row)
    (assign_Z (Order.UserId o) (Order.UserId row))
    (assign_Z (Order.ProductId o) (Order.ProductId row))
    (assign_string (Order.Username o) (Order.Username row))
    (assign_string (Order.OrderNo o) (Order.OrderNo row))
    (assign_string (Order.TradeNo o) (Order.TradeNo row))
    (assign_string (Order.Subject o) (Order.Subject row))
    (assign_float64 (Order.Amount o) (Order.Amount row))
    (assign_status (Order.Status o) (Order.Status row))
    (assign_string (Order.PayWay o) (Order.PayWay row))
    (assign_string (Order.PayType o) (Order.PayType row))
    (assign_string (Order.Remark o) (Order.Remark row))
    (assign_Z (Order.PayTime o) (Order.PayTime row)).

Definition updated_user (u row : User.t) : User.t :=
  User.mk (User.Id row)
    (assign_string (User.Username u) (User.Username row))
    (assign_Z (User.Power u) (User.Power row))
    (assign_Z (User.ExpiredTime u) (User.ExpiredTime row))
    (assign_bool (User.Vip u) (User.Vip row)).

Definition save_order (o : Order.t) (db : DB) : DB :=
  mkDB (map (fun r => if Order.Id r =? Order.Id o then updated_order o r else r)
            (orders db))
       (users db) (products db) (power_logs db).

Definition save_user (u : User.t) (db : DB) : DB :=
  mkDB (orders db)
       (map (fun r => if User.Id r =? User.Id u then updated_user u r else r)
            (users db))
       (products db) (power_logs db).

(** [h.DB.Updates(&user)] *)
Definition Updates_user (fault : option error) (u : User.t) (db : DB)
  : option error * DB :=
  match fault with
  | Some e => (Some e, db)
  | None => (None, save_user u db)
  end.

(** [h.DB.Updates(&order)] *)
Definition Updates_order (fault : option error) (o : Order.t) (db : DB)
  : option error * DB :=
  match fault with
  | Some e => (Some e, db)
  | None => (None, save_order o db)
  end.

(** [h.DB.Model(&order).UpdateColumn("status", status)] *)
Definition UpdateColumn_status (fault : option error) (o : Order.t)
  (status : OrderStatus) (db : DB) : option error * DB :=
  match fault with
  | Some e => (Some e, db)
  | None =>
      (None,
       mkDB (map (fun r => if Order.Id r =? Order.Id o
                           then Order.with_Status status r else r) (orders db))
            (users db) (products db) (power_logs db))
  end.

(** [h.DB.Model(&model.Product{}).Where("id = ?", id).UpdateColumn("sales", gorm.Expr("sales + ?", 1))] *)
Definition UpdateColumn_sales (fault : option error) (id : Z) (db : DB)
  : option error * DB :=
  match fault with
  | Some e => (Some e, db)
  | None =>
      (None,
       mkDB (orders db) (users db)
            (map (fun p => if Product.Id p =? id
                           then Product.with_Sales (Product.Sales p + 1) p else p)
                 (products db))
            (power_logs db))
  end.

(** [h.DB.Create(&model.PowerLog{...})] *)
Definition Create_power_log (fault : option error) (l : PowerLog.t) (db : DB)
  : option error * DB :=
  match fault with
  | Some e => (Some e, db)
  | None => (None, mkDB (orders db) (users db) (products db) (power_logs db ++ [l]))
  end.

(** What [h.DB.Create(&order)] reports: an error, no error with
    [RowsAffected = 0], or one row inserted. *)
Inductive CreateOutcome : Type :=
| CreateError (e : error)
| CreateNoRows
| CreateInserted.

Definition next_order_id (db : DB) : Z :=
  fold_right Z.max 0 (map Order.Id (orders db)) + 1.

Definition insert_order (o : Order.t) (db : DB) : DB :=
  mkDB (orders db ++ [Order.with_Id (next_order_id db) o])
       (users db) (products db) (power_logs db).

(** ** The request, the responses and the handler *)

Record PayData : Type := mkPayData
  { pd_PayWay : string;          (* json:"pay_way" *)
    pd_PayType : string;         (* json:"pay_type" *)
    pd_ProductId : Z }.          (* json:"product_id" *)

(** A [*gin.Context], by what the handlers read from it. *)
Module gin.
Record Context : Type := mk
  { GetTrim : string -> string;            (* h.GetTrim(c, key) *)
    GetInt : string -> Z -> Z;             (* h.GetInt(c, key, default) *)
    ShouldBindJSON : error + PayData;      (* c.ShouldBindJSON(&data) *)
    ParseForm : option error;              (* c.Request.ParseForm() *)
    Form_Get : string -> string;           (* c.Request.Form.Get(key) *)
    ClientIP : string;                     (* c.ClientIP() *)
    GetLoginUser : error + User.t }.       (* h.GetLoginUser(c) *)
End gin.

Inductive Data : Type :=
| DataString (s : string)
| DataH (fields : list (string * string)).

(** What a handler writes: the envelopes of [geekai/utils/resp], the gin
    writers, nothing at all, or a run-time panic. *)
Inductive Response : Type :=
| resp_ERROR (msg : string)
| resp_SUCCESS (data : Data)
| resp_NotAuth
| c_String (code : Z) (body : string)
| c_Redirect (code : Z) (location : string)
| NoResponse
| Panic.

Definition StatusOK : Z := 200.

(** ** [geekai/service/payment]: what the handler passes to and gets back
    from the provider services *)

Module payment.
Record HuPiPayReq : Type := mkHuPiPayReq
  { Version : string;
    TradeOrderId : string;
    TotalFee : string;
    Title : string;
    NotifyURL : string;
    ReturnURL : string;
    CallbackURL : string;
    WapName : string;
    WapUrl : string;
    Type_ : string }.

Record GeekPayParams : Type := mkGeekPayParams
  { OutTradeNo : string;
    Method : string;
    Name : string;
    Money : string;
    GeekClientIP : string;
    Device : string;
    GeekType : string }.

(** The result of a [TradeVerify] call. *)
Record NotifyVo : Type := mkNotifyVo
  { Success : bool;
    Message : string;
    VoOutTradeNo : string;
    TradeId : string }.
End payment.

(** The helpers the handler imports and the file does not define. *)
Class Runtime : Type :=
  { InvalidArgs : string;                          (* types.InvalidArgs *)
    Sha256 : string -> string;                     (* utils.Sha256 *)
    JsonEncode : OrderRemark.t -> string;          (* utils.JsonEncode *)
    JsonDecode : string -> error + OrderRemark.t;  (* utils.JsonDecode *)
    (* time.Unix(t, 0).AddDate(0, 0, days).Unix() *)
    AddDate : Z -> Z -> Z;
    (* decimal.NewFromFloat(a).Sub(decimal.NewFromFloat(b)).Float64() *)
    DecimalSub : float64 -> float64 -> float64;
    sprintf_f : float64 -> string;                 (* fmt.Sprintf("%f", x) *)
    sprintf_2f : float64 -> string;                (* fmt.Sprintf("%.2f", x) *)
    int_times100 : float64 -> Z;                   (* int(x*100) *)
    fs_Open : string -> error + string;            (* h.fs.Open *)
    url_Parse : string -> error + string * string; (* url.Parse: Scheme, Host *)
    GenQrcode : string -> Z -> string -> error + string;   (* utils.GenQrcode *)
    base64_EncodeToString : string -> string }.

(** [PaymentHandler]: the provider services by their methods, the signing
    key, and the configuration the handlers read through [h.App]. *)
Record PaymentHandler : Type := mkPaymentHandler
  { alipay_PayUrlMobile : string -> string -> string -> error + string;
    alipay_TradeVerify : gin.Context -> payment.NotifyVo;
    huPi_Pay : payment.HuPiPayReq -> error + string;
    huPi_Check : string -> option error;
    geek_Pay : payment.GeekPayParams -> error + string;
    wechat_PayUrlNative : string -> Z -> string -> error + string;
    wechat_PayUrlH5 : string -> Z -> string -> string -> error + string;
    wechat_TradeVerify : gin.Context -> payment.NotifyVo;
    signKey : string;
    OrderPayTimeout : Z;           (* h.App.SysConfig.OrderPayTimeout *)
    VipMonthPower : Z;             (* h.App.SysConfig.VipMonthPower *)
    HuPi_NotifyURL : string;       (* h.App.Config.HuPiPayConfig.NotifyURL *)
    HuPi_ReturnURL : string;
    Geek_NotifyURL : string;
    Alipay_NotifyURL : string;
    Wechat_NotifyURL : string }.

Section Handlers.
Context {RT : Runtime}.
Variable h : PaymentHandler.

(** *** [DoPay] *)

(** The inputs of one [DoPay] run that are not in the request. *)
Record DoPayRun : Type := mkDoPayRun
  { dp_now : Z;                        (* time.Now().Unix() *)
    dp_fault_order : option error;     (* failure of the order query *)
    dp_fault_scan : option error }.    (* failure of the status update *)

(** Lines 112-163: the provider call of [DoPay]. *)
Definition DoPay_provider (c : gin.Context) (orderNo : string) (order : Order.t)
  : Response :=
  if (Order.PayWay order =? "alipay")%string then
    let amount := sprintf_2f (Order.Amount order) in
    match alipay_PayUrlMobile h (Order.OrderNo order) amount (Order.Subject order) with
    | inl err => resp_ERROR ("error with generate pay url: " ++ err)
    | inr uri => c_Redirect 302 uri
    end
  else if (Order.PayWay order =? "hupi")%string then
    let params :=
      payment.mkHuPiPayReq "1.1" orderNo (sprintf_f (Order.Amount order))
        (Order.Subject order) (HuPi_NotifyURL h) "" "" "极客学长" "" "" in
    match huPi_Pay h params with
    | inl err => resp_ERROR err
    | inr url => c_Redirect 302 url
    end
  else if (Order.PayWay order =? "wechat")%string then
    match wechat_PayUrlNative h (Order.OrderNo order)
            (int_times100 (Order.Amount order)) (Order.Subject order) with
    | inl err => resp_ERROR err
    | inr uri => c_Redirect 302 uri
    end
  else if (Order.PayWay order =? "geek")%string then
    let params :=
      payment.mkGeekPayParams orderNo "web" (Order.Subject order)
        (sprintf_f (Order.Amount order)) (gin.ClientIP c) "pc" "alipay" in
    match geek_Pay h params with
    | inl err => resp_ERROR err
    | inr s => resp_SUCCESS (DataString s)
    end
  else NoResponse.

(** The string [DoPay] hashes (line 78). *)
Definition DoPay_signStr (orderNo : string) (t : Z) : string :=
  orderNo ++ "-" ++ sprintf_d t ++ "-" ++ signKey h.

Definition DoPay (c : gin.Context) (run : DoPayRun) (db : DB) : Response * DB :=
  let orderNo := gin.GetTrim c "order_no" in
  let t := gin.GetInt c "t" 0 in
  let sign := gin.GetTrim c "sign" in
  let newSign := Sha256 (DoPay_signStr orderNo t) in
  if negb (newSign =? sign)%string then
    (resp_ERROR "订单签名错误！", db)
  else if int_sub (dp_now run) t >? OrderPayTimeout h then
    (resp_ERROR "支付二维码已过期，请重新生成！", db)
  else if (orderNo =? "")%string then
    (resp_ERROR InvalidArgs, db)
  else
    match First (dp_fault_order run) (find_order db orderNo) with
    | inl _ => (resp_ERROR "Order not found", db)
    | inr order =>
        if OrderStatus_eqb (Order.Status order) OrderPaidSuccess then
          (resp_ERROR "订单已支付成功，无需重复支付！", db)
        else
          let db := snd (UpdateColumn_status (dp_fault_scan run) order OrderScanned db) in
          (DoPay_provider c orderNo order, db)
    end.

(** *** [PayQrcode] and [Mobile] *)

(** The inputs of one order-creating run that are not in the request. *)
Record PayRun : Type := mkPayRun
  { pay_fault_product : option error;   (* failure of the product query *)
    pay_snowflake : error + string;     (* h.snowflake.Next(false) *)
    pay_create : CreateOutcome;         (* h.DB.Create(&order) *)
    pay_now : Z }.                      (* time.Now().Unix() *)

Definition remark_of (product : Product.t) : OrderRemark.t :=
  OrderRemark.mk (Product.Days product) (Product.Power product)
    (Product.Name product) (Product.Price product) (Product.Discount product).

Definition new_order (user : User.t) (product : Product.t) (orderNo : string)
  (amount : float64) (data : PayData) : Order.t :=
  Order.mk 0 (User.Id user) (Product.Id product) (User.Username user) orderNo ""
    (Product.Name product) amount OrderNotPaid (pd_PayWay data) (pd_PayType data)
    (JsonEncode (remark_of product)) 0.

(** [res = h.DB.Create(&order)] followed by the test of lines 238 and 396:
    [res.Error.Error()] is evaluated also when only [RowsAffected] is 0. *)
Definition Create_order (outcome : CreateOutcome) (order : Order.t) (db : DB)
  : option Response * DB :=
  match outcome with
  | CreateError e => (Some (resp_ERROR ("error with create order: " ++ e)), db)
  | CreateNoRows => (Some Panic, db)
  | CreateInserted => (None, insert_order order db)
  end.

(** The string [PayQrcode] hashes (line 275). *)
Definition PayQrcode_signStr (orderNo payWay : string) (timestamp : Z) : string :=
  orderNo ++ "-" ++ payWay ++ "-" ++ sprintf_d timestamp ++ "-" ++ signKey h.

Definition PayQrcode_sign (orderNo payWay : string) (timestamp : Z) : string :=
  Sha256 (PayQrcode_signStr orderNo payWay timestamp).

Definition PayQrcode_logo (payType : string) : string :=
  let logo :=
    if (payType =? "alipay")%string then "res/img/alipay.jpg"
    else if (payType =? "wechat")%string then "res/img/wechat-pay.jpg"
    else if (payType =? "qq")%string then "res/img/qq-pay.jpg"
    else "res/img/geek-pay.jpg" in
  if (payType =? "alipay")%string then "res/img/alipay.jpg"
  else if (payType =? "wechat")%string then "res/img/wechat-pay.jpg"
  else logo.

Definition PayQrcode_notifyURL (payWay : string) : option string :=
  if (payWay =? "hupi")%string then Some (HuPi_NotifyURL h)
  else if (payWay =? "geek")%string then Some (Geek_NotifyURL h)
  else if (payWay =? "alipay")%string then Some (Alipay_NotifyURL h)
  else if (payWay =? "wechat")%string then Some (Wechat_NotifyURL h)
  else None.

(** Lines 243-284: the signed URL and its QR code, once the order is stored. *)
Definition PayQrcode_url (data : PayData) (orderNo notifyURL : string) (now : Z)
  : Response :=
  match fs_Open (PayQrcode_logo (pd_PayType data)) with
  | inl err => resp_ERROR ("error with open qrcode log file: " ++ err)
  | inr file =>
      match url_Parse notifyURL with
      | inl err => resp_ERROR err
      | inr (scheme, host) =>
          let timestamp := now in
          let sign := PayQrcode_sign orderNo (pd_PayWay data) timestamp in
          let payUrl :=
            scheme ++ "://" ++ host ++ "/api/payment/doPay?order_no=" ++ orderNo
            ++ "&pay_way=" ++ pd_PayWay data ++ "&pay_type=" ++ pd_PayType data
            ++ "&t=" ++ sprintf_d timestamp ++ "&sign=" ++ sign in
          match GenQrcode payUrl 400 file with
          | inl err => resp_ERROR err
          | inr imgData =>
              resp_SUCCESS
                (DataH [("order_no", orderNo);
                        ("image", "data:image/jpg;base64, " ++ base64_EncodeToString imgData);
                        ("url", payUrl)])
          end
      end
  end.

Definition PayQrcode (c : gin.Context) (run : PayRun) (db : DB) : Response * DB :=
  match gin.ShouldBindJSON c with
  | inl _ => (resp_ERROR InvalidArgs, db)
  | inr data =>
  match First (pay_fault_product run) (find_product db (pd_ProductId data)) with
  | inl _ => (resp_ERROR "Product not found", db)
  | inr product =>
  match pay_snowflake run with
  | inl err => (resp_ERROR ("error with generate trade no: " ++ err), db)
  | inr orderNo =>
  match gin.GetLoginUser c with
  | inl _ => (resp_NotAuth, db)
  | inr user =>
  match PayQrcode_notifyURL (pd_PayWay data) with
  | None => (resp_ERROR "Invalid pay way", db)
  | Some notifyURL =>
      let amount := DecimalSub (Product.Price product) (Product.Discount product) in
      let order := new_order user product orderNo amount data in
      match Create_order (pay_create run) order db with
      | (Some r, db) => (r, db)
      | (None, db) => (PayQrcode_url data orderNo notifyURL (pay_now run), db)
      end
  end end end end end.

(** Lines 320-373 of [Mobile]: the provider call that yields the pay URL. *)
Definition Mobile_payURL (c : gin.Context) (data : PayData) (product : Product.t)
  (orderNo : string) (amount : float64) : Response + string :=
  if (pd_PayWay data =? "hupi")%string then
    let notifyURL := HuPi_NotifyURL h in
    let returnURL := HuPi_ReturnURL h in
    match url_Parse (HuPi_ReturnURL h) with
    | inl _ => inl Panic          (* parse is nil: parse.Scheme dereferences it *)
    | inr (scheme, host) =>
        let baseURL := scheme ++ "://" ++ host in
        let params :=
          payment.mkHuPiPayReq "1.1" orderNo (sprintf_f amount) (Product.Name product)
            notifyURL returnURL returnURL "极客学长" baseURL "WAP" in
        match huPi_Pay h params with
        | inl err => inl (resp_ERROR ("error with generating Pay Hupi URL: " ++ err))
        | inr url => inr url
        end
    end
  else if (pd_PayWay data =? "geek")%string then inr ""
  else if (pd_PayWay data =? "alipay")%string then
    match alipay_PayUrlMobile h orderNo (sprintf_2f amount) (Product.Name product) with
    | inl err => inl (resp_ERROR ("error with generating Alipay URL: " ++ err))
    | inr url => inr url
    end
  else if (pd_PayWay data =? "wechat")%string then
    match wechat_PayUrlH5 h orderNo (int_times100 amount) (Product.Name product)
            (gin.ClientIP c) with
    | inl err => inl (resp_ERROR ("error with generating Wechat URL: " ++ err))
    | inr url => inr url
    end
  else inl (resp_ERROR ("Unsupported pay way: " ++ pd_PayWay data)).

Definition Mobile (c : gin.Context) (run : PayRun) (db : DB) : Response * DB :=
  match gin.ShouldBindJSON c with
  | inl _ => (resp_ERROR InvalidArgs, db)
  | inr data =>
  match First (pay_fault_product run) (find_product db (pd_ProductId data)) with
  | inl _ => (resp_ERROR "Product not found", db)
  | inr product =>
  match pay_snowflake run with
  | inl err => (resp_ERROR ("error with generate trade no: " ++ err), db)
  | inr orderNo =>
  match gin.GetLoginUser c with
  | inl _ => (resp_NotAuth, db)
  | inr user =>
      let amount := DecimalSub (Product.Price product) (Product.Discount product) in
      match Mobile_payURL c data product orderNo amount with
      | inl r => (r, db)
      | inr payURL =>
          let order := new_order user product orderNo amount data in
          match Create_order (pay_create run) order db with
          | (Some r, db) => (r, db)
          | (None, db) =>
              (resp_SUCCESS (DataH [("url", payURL); ("order_no", orderNo)]), db)
          end
      end
  end end end end.

(** *** [notify] *)

(** The inputs of one [notify] run: the four clock readings, in source
    order, and the failure (if any) of each database call. *)
Record NotifyRun : Type := mkNotifyRun
  { now_expiry : Z;                      (* line 441: time.Now().Unix() *)
    now_renew : Z;                       (* line 445: time.Now() *)
    now_pay : Z;                         (* line 466 *)
    now_log : Z;                         (* line 490 *)
    fault_order : option error;          (* line 407 *)
    fault_user : option error;           (* line 423 *)
    fault_save_user : option error;      (* line 458 *)
    fault_save_order : option error;     (* line 469 *)
    fault_sales : option error;          (* line 477 *)
    fault_log : option error }.          (* line 481 *)

(** Lines 438-455: the credited user, the reason text and the logged power. *)
Definition credit (run : NotifyRun) (remark : OrderRemark.t) (user : User.t)
  : User.t * string * Z :=
  if OrderRemark.Days remark >? 0 then
    if User.ExpiredTime user >=? now_expiry run then
      let user :=
        User.with_ExpiredTime
          (AddDate (User.ExpiredTime user) (OrderRemark.Days remark)) user in
      (User.with_Vip true user, "VIP充值，VIP 没到期，只延期不增加算力", 0)
    else
      let user :=
        User.with_ExpiredTime (AddDate (now_renew run) (OrderRemark.Days remark)) user in
      let user := User.with_Power (int_add (User.Power user) (VipMonthPower h)) user in
      (User.with_Vip true user, "VIP充值", VipMonthPower h)
  else
    let user :=
      User.with_Power (int_add (User.Power user) (OrderRemark.Power remark)) user in
    (user, "点卡充值", OrderRemark.Power remark).

(** Lines 481-491: the audit row. *)
Definition power_log (run : NotifyRun) (user : User.t) (order : Order.t)
  (opt : string) (power : Z) : PowerLog.t :=
  PowerLog.mk (User.Id user) (User.Username user) PowerRecharge power
    (User.Power user) PowerAdd (Order.PayWay order)
    (opt ++ "，金额：" ++ sprintf_f (Order.Amount order)
         ++ "，订单号：" ++ Order.OrderNo order)
    (now_log run).

(** Lines 417-494: what [notify] does with the order it fetched, while it
    holds [h.lock]. *)
Definition notify_locked (run : NotifyRun) (order : Order.t) (tradeNo : string)
  (db : DB) : option error * DB :=
  if OrderStatus_eqb (Order.Status order) OrderPaidSuccess then (None, db)
  else
    match First (fault_user run) (find_user db (Order.UserId order)) with
    | inl e => (Some ("error with fetch user info: " ++ e), db)
    | inr user =>
    match JsonDecode (Order.Remark order) with
    | inl e => (Some ("error with decode order remark: " ++ e), db)
    | inr remark =>
        let '(user, opt, power) := credit run remark user in
        match Updates_user (fault_save_user run) user db with
        | (Some e, db) => (Some ("error with update user info: " ++ e), db)
        | (None, db) =>
            let order := Order.with_PayTime (now_pay run) order in
            let order := Order.with_Status OrderPaidSuccess order in
            let order := Order.with_TradeNo tradeNo order in
            match Updates_order (fault_save_order run) order db with
            | (Some e, db) => (Some ("error with update order info: " ++ e), db)
            | (None, db) =>
                let db := snd (UpdateColumn_sales (fault_sales run)
                                 (Order.ProductId order) db) in
                let db :=
                  if power >? 0
                  then snd (Create_power_log (fault_log run)
                              (power_log run user order opt power) db)
                  else db in
                (None, db)
            end
        end
    end end.

(** Lines 406-412: the order query, before the lock is taken. *)
Definition notify_fetch (run : NotifyRun) (orderNo : string) (db : DB)
  : error + Order.t :=
  match First (fault_order run) (find_order db orderNo) with
  | inl e => inl ("error with fetch order: " ++ e)
  | inr order => inr order
  end.

(** One uninterrupted call of [notify]. *)
Definition notify (run : NotifyRun) (orderNo tradeNo : string) (db : DB)
  : option error * DB :=
  match notify_fetch run orderNo db with
  | inl err => (Some err, db)
  | inr order => notify_locked run order tradeNo db
  end.

(** *** The provider notification endpoints *)

Definition ack (res : option error * DB) : Response * DB :=
  match res with
  | (Some _, db) => (c_String StatusOK "fail", db)
  | (None, db) => (c_String StatusOK "success", db)
  end.

Definition HuPiPayNotify (c : gin.Context) (run : NotifyRun) (db : DB)
  : Response * DB :=
  match gin.ParseForm c with
  | Some _ => (c_String StatusOK "fail", db)
  | None =>
      let orderNo := gin.Form_Get c "trade_order_id" in
      let tradeNo := gin.Form_Get c "open_order_id" in
      match huPi_Check h tradeNo with
      | Some _ => (c_String StatusOK "fail", db)
      | None => ack (notify run orderNo tradeNo db)
      end
  end.

Definition AlipayNotify (c : gin.Context) (run : NotifyRun) (db : DB)
  : Response * DB :=
  match gin.ParseForm c with
  | Some _ => (c_String StatusOK "fail", db)
  | None =>
      let res := alipay_TradeVerify h c in
      if negb (payment.Success res) then (c_String StatusOK "fail", db)
      else
        let tradeNo := gin.Form_Get c "trade_no" in
        ack (notify run (payment.VoOutTradeNo res) tradeNo db)
  end.

Definition PayJsNotify (c : gin.Context) (run : NotifyRun) (db : DB)
  : Response * DB :=
  match gin.ParseForm c with
  | Some _ => (c_String StatusOK "fail", db)
  | None =>
      let orderNo := gin.Form_Get c "out_trade_no" in
      let returnCode := gin.Form_Get c "return_code" in
      if negb (returnCode =? "1")%string then (NoResponse, db)
      else
        let tradeNo := gin.Form_Get c "payjs_order_id" in
        ack (notify run orderNo tradeNo db)
  end.

(** On a failed verification [err] is still the [nil] that [ParseForm]
    returned, so building the JSON body with [err.Error()] panics. *)
Definition WechatPayNotify (c : gin.Context) (run : NotifyRun) (db : DB)
  : Response * DB :=
  match gin.ParseForm c with
  | Some _ => (c_String StatusOK "fail", db)
  | None =>
      let result := wechat_TradeVerify h c in
      if negb (payment.Success result) then (Panic, db)
      else ack (notify run (payment.VoOutTradeNo result) (payment.TradeId result) db)
  end.

(** *** Concurrent calls of [notify]

    Each callback runs [notify] on a worker of its own.  The workers share
    the store and [h.lock], the one mutex of the handler.  A worker takes
    three steps: the order query (no lock held), [h.lock.Lock()], and the
    locked part up to the deferred [Unlock]. *)

Inductive Worker : Type :=
| Called (orderNo tradeNo : string)           (* about to run line 407 *)
| Fetched (order : Order.t) (tradeNo : string)    (* at h.lock.Lock() *)
| Locked (order : Order.t) (tradeNo : string)     (* holds h.lock *)
| Returned (res : option error).

Record System : Type := mkSystem
  { sys_db : DB;
    sys_lock : bool;                 (* h.lock is held *)
    sys_workers : list Worker }.

Definition step_worker (run : NotifyRun) (w : Worker) (lock : bool) (db : DB)
  : option (Worker * bool * DB) :=
  match w with
  | Called orderNo tradeNo =>
      match notify_fetch run orderNo db with
      | inl err => Some (Returned (Some err), lock, db)
      | inr order => Some (Fetched order tradeNo, lock, db)
      end
  | Fetched order tradeNo =>
      if lock then None else Some (Locked order tradeNo, true, db)
  | Locked order tradeNo =>
      let '(res, db) := notify_locked run order tradeNo db in
      Some (Returned res, false, db)
  | Returned _ => None
  end.

Fixpoint set_worker (i : nat) (w : Worker) (ws : list Worker) : list Worker :=
  match i, ws with
  | O, _ :: rest => w :: rest
  | S i', w0 :: rest => w0 :: set_worker i' w rest
  | _, [] => []
  end.

(** Worker [i] takes its next step; [None] when it cannot move. *)
Definition step (i : nat) (run : NotifyRun) (s : System) : option System :=
  match nth_error (sys_workers s) i with
  | None => None
  | Some w =>
      match step_worker run w (sys_lock s) (sys_db s) with
      | None => None
      | Some (w', lock, db) => Some (mkSystem db lock (set_worker i w' (sys_workers s)))
      end
  end.

(** A schedule names, step by step, the worker that moves. *)
Fixpoint exec (schedule : list (nat * NotifyRun)) (s : System) : option System :=
  match schedule with
  | [] => Some s
  | (i, run) :: rest =>
      match step i run s with
      | None => None
      | Some s' => exec rest s'
      end
  end.



(** *** The success path of [notify], in closed form *)

(** The order row written at line 469. *)
Definition paid_order (run : NotifyRun) (order : Order.t) (tradeNo : string)
  : Order.t :=
  Order.with_TradeNo tradeNo
    (Order.with_Status OrderPaidSuccess (Order.with_PayTime (now_pay run) order)).

(** The store after lines 458-492 when both [Updates] calls succeed. *)
Definition settled_db (run : NotifyRun) (order : Order.t) (tradeNo : string)
  (user : User.t) (remark : OrderRemark.t) (db : DB) : DB :=
  let '(user', opt, power) := credit run remark user in
  let order' := paid_order run order tradeNo in
  let db := save_order order' (save_user user' db) in
  let db := snd (UpdateColumn_sales (fault_sales run) (Order.ProductId order') db) in
  if power >? 0
  then snd (Create_power_log (fault_log run) (power_log run user' order' opt power) db)
  else db.

(** The responses that acknowledge a notification to the provider. *)
Definition is_ack (r : Response) : Prop :=
  r = c_String StatusOK "success" \/ r = c_String StatusOK "fail".

(** No order row moved backwards between two stores: same rows, same
    keys, and the rank of every status did not drop. *)
Definition status_monotone (db db' : DB) : Prop :=
  Forall2 (fun o o' => Order.Id o' = Order.Id o /\
                       status_rank (Order.Status o) <= status_rank (Order.Status o'))
          (orders db) (orders db').

(** The providers' side of the acknowledgment protocol, as the endpoints
    rely on it: a provider delivers a notification again after any answer
    other than the plain-text success token. *)
Definition provider_retries (r : Response) : Prop :=
  r <> c_String StatusOK "success".

End Handlers.

(** ** [GetPayWays]

    The enable flags and the display name the handler reads through
    [h.App.Config], and the list it hands to [resp.SUCCESS]: one
    [(pay_way, pay_type)] pair per [gin.H] appended. *)

Record PayWaysConfig : Type := mkPayWaysConfig
  { Alipay_Enabled : bool;        (* h.App.Config.AlipayConfig.Enabled *)
    HuPi_Enabled : bool;          (* h.App.Config.HuPiPayConfig.Enabled *)
    HuPi_Name : string;           (* h.App.Config.HuPiPayConfig.Name *)
    Geek_Enabled : bool;          (* h.App.Config.GeekPayConfig.Enabled *)
    Wechat_Enabled : bool }.      (* h.App.Config.WechatPayConfig.Enabled *)

Definition GetPayWays (cfg : PayWaysConfig) : list (string * string) :=
  let payWays : list (string * string) := [] in
  let payWays :=
    if Alipay_Enabled cfg then (payWays ++ [("alipay", "alipay")])%list else payWays in
  let payWays :=
    if HuPi_Enabled cfg then (payWays ++ [("hupi", HuPi_Name cfg)])%list else payWays in
  let payWays :=
    if Geek_Enabled cfg
    then (payWays ++ [("geek", "alipay")] ++ [("geek", "wechat")] ++ [("geek", "qq")]
            ++ [("geek", "jd")] ++ [("geek", "douyin")] ++ [("geek", "paypal")])%list
    else payWays in
  if Wechat_Enabled cfg then (payWays ++ [("wechat", "wechat")])%list else payWays.

(** ** The workers inside the locked part *)

Definition holds_lock (w : Worker) : bool :=
  match w with
  | Locked _ _ => true
  | _ => false
  end.

Definition lock_holders (s : System) : nat :=
  length (filter holds_lock (sys_workers s)).

(** [h.lock] is held exactly when one worker is in the locked part, and
    no second worker is there. *)
Definition lock_consistent (s : System) : Prop :=
  (sys_lock s = false /\ lock_holders s = 0%nat) \/
  (sys_lock s = true /\ lock_holders s = 1%nat).

(** ** The guards of [DoPay]

    Lines 80-107: the request carries the signature [DoPay] computes, is
    not older than the timeout, names an order, and that order is stored
    and not yet paid. *)

Definition DoPay_accepts {RT : Runtime} (h : PaymentHandler) (c : gin.Context)
  (run : DoPayRun) (db : DB) (order : Order.t) : Prop :=
  Sha256 (DoPay_signStr h (gin.GetTrim c "order_no") (gin.GetInt c "t" 0))
  = gin.GetTrim c "sign" /\
  int_sub (dp_now run) (gin.GetInt c "t" 0) <= OrderPayTimeout h /\
  gin.GetTrim c "order_no" <> "" /\
  First (dp_fault_order run) (find_order db (gin.GetTrim c "order_no")) = inr order /\
  Order.Status order <> OrderPaidSuccess.

(** ** [DoPay] in its two statements on the store

    [DoPay] does not take [h.lock].  The order query of line 97 and the
    status update of line 110 are two statements, and another request can
    act on the store between them.  [DoPay_read] is lines 75-107: what
    the request is turned down with, or the order it fetched.
    [DoPay_write] is lines 110-163, run with that order on the store as
    it is by then. *)

Definition DoPay_read {RT : Runtime} (h : PaymentHandler) (c : gin.Context)
  (run : DoPayRun) (db : DB) : Response + Order.t :=
  let orderNo := gin.GetTrim c "order_no" in
  let t := gin.GetInt c "t" 0 in
  let sign := gin.GetTrim c "sign" in
  let newSign := Sha256 (DoPay_signStr h orderNo t) in
  if negb (newSign =? sign)%string then
    inl (resp_ERROR "订单签名错误！")
  else if int_sub (dp_now run) t >? OrderPayTimeout h then
    inl (resp_ERROR "支付二维码已过期，请重新生成！")
  else if (orderNo =? "")%string then
    inl (resp_ERROR InvalidArgs)
  else
    match First (dp_fault_order run) (find_order db orderNo) with
    | inl _ => inl (resp_ERROR "Order not found")
    | inr order =>
        if OrderStatus_eqb (Order.Status order) OrderPaidSuccess then
          inl (resp_ERROR "订单已支付成功，无需重复支付！")
        else inr order
    end.

Definition DoPay_write {RT : Runtime} (h : PaymentHandler) (c : gin.Context)
  (run : DoPayRun) (order : Order.t) (db : DB) : Response * DB :=
  let orderNo := gin.GetTrim c "order_no" in
  let db := snd (UpdateColumn_status (dp_fault_scan run) order OrderScanned db) in
  (DoPay_provider h c orderNo order, db).

(** ** A concrete runtime, handler and store

    The helpers are given by tables that are exact on the values used
    below; [Sha256] is the real digest and [AddDate] is calendar
    arithmetic in UTC, where every day has 86400 seconds. *)

Module Fixture.

Definition f0 : float64 := Float64frombits 0.                        (* 0.0 *)
Definition f29_9 : float64 := Float64frombits 0x403de66666666666.    (* 29.9 *)
Definition f9_9 : float64 := Float64frombits 0x4023cccccccccccd.     (* 9.9 *)

Definition bits (x : float64) : Z := match x with Float64frombits b => b end.

Definition vip30 : OrderRemark.t := OrderRemark.mk 30 0 "VIP 30" f29_9 f0.
Definition topup100 : OrderRemark.t := OrderRemark.mk 0 100 "Power 100" f9_9 f0.

Definition encode (r : OrderRemark.t) : string :=
  "days=" ++ sprintf_d (OrderRemark.Days r) ++ ";power=" ++ sprintf_d (OrderRemark.Power r).

Definition decode (s : string) : error + OrderRemark.t :=
  if (s =? "days=30;power=0")%string then inr vip30
  else if (s =? "days=0;power=100")%string then inr topup100
  else inl "invalid character".

Definition format6 (x : float64) : string :=
  if bits x =? bits f29_9 then "29.900000"
  else if bits x =? bits f9_9 then "9.900000" else "0.000000".

Definition format2 (x : float64) : string :=
  if bits x =? bits f29_9 then "29.90"
  else if bits x =? bits f9_9 then "9.90" else "0.00".

Definition times100 (x : float64) : Z :=
  if bits x =? bits f29_9 then 2990
  else if bits x =? bits f9_9 then 990 else 0.

Definition sub (a b : float64) : float64 :=
  if bits b =? 0 then a else f0.

Definition parse (u : string) : error + string * string :=
  if (u =? "https://shop.example.com/api/payment/notify")%string
  then inr ("https", "shop.example.com")
  else inl "invalid URI".

#[global] Instance runtime : Runtime :=
  {| InvalidArgs := "Invalid args";
     Sha256 := SHA256.hexdigest;
     JsonEncode := encode;
     JsonDecode := decode;
     AddDate := fun t days => t + 86400 * days;
     DecimalSub := sub;
     sprintf_f := format6;
     sprintf_2f := format2;
     int_times100 := times100;
     fs_Open := fun name => inr name;
     url_Parse := parse;
     GenQrcode := fun _ _ _ => inr "qr";
     base64_EncodeToString := fun _ => "cXI=" |}.

Definition verify (c : gin.Context) : payment.NotifyVo :=
  payment.mkNotifyVo (gin.Form_Get c "trade_status" =? "TRADE_SUCCESS")%string
    "" (gin.Form_Get c "out_trade_no") (gin.Form_Get c "trade_no").

Definition notifyURL : string := "https://shop.example.com/api/payment/notify".

(** [provider] is the answer of every provider call that returns a pay URL. *)
Definition handler (provider : error + string) : PaymentHandler :=
  {| alipay_PayUrlMobile := fun _ _ _ => provider;
     alipay_TradeVerify := verify;
     huPi_Pay := fun _ => provider;
     huPi_Check := fun tradeNo => if (tradeNo =? "")%string then Some "no trade" else None;
     geek_Pay := fun _ => provider;
     wechat_PayUrlNative := fun _ _ _ => provider;
     wechat_PayUrlH5 := fun _ _ _ _ => provider;
     wechat_TradeVerify := verify;
     signKey := "Zq3mX8vK1tLw9Rb2Yc7Nd5Hf0Jg4Ps6U";
     OrderPayTimeout := 600;
     VipMonthPower := 1000;
     HuPi_NotifyURL := notifyURL;
     HuPi_ReturnURL := notifyURL;
     Geek_NotifyURL := notifyURL;
     Alipay_NotifyURL := notifyURL;
     Wechat_NotifyURL := notifyURL |}.

Definition h_up : PaymentHandler := handler (inr "https://pay.example.com/cashier").
Definition h_down : PaymentHandler := handler (inl "gateway timeout").

(** The store: a lapsed user (1) and a subscribed one (2), whose
    subscription ends at 1800000000; one order of each kind. *)
Definition now : Z := 1700000000.

Definition alice : User.t := User.mk 1 "alice" 10 0 false.
Definition bob : User.t := User.mk 2 "bob" 20 1800000000 true.

Definition order (id user product : Z) (name orderNo : string) (amount : float64)
  (status : OrderStatus) (r : OrderRemark.t) : Order.t :=
  Order.mk id user product name orderNo "" (OrderRemark.Name r) amount status
    "hupi" "wechat" (encode r) 0.

Definition o1001 : Order.t := order 1 1 1 "alice" "1001" f29_9 OrderNotPaid vip30.
Definition o1002 : Order.t := order 2 1 2 "alice" "1002" f9_9 OrderNotPaid topup100.
Definition o1003 : Order.t := order 3 2 1 "bob" "1003" f29_9 OrderScanned vip30.
Definition o1004 : Order.t :=
  Order.with_TradeNo "T0" (order 4 2 2 "bob" "1004" f9_9 OrderPaidSuccess topup100).

Definition db0 : DB :=
  {| orders := [o1001; o1002; o1003; o1004];
     users := [alice; bob];
     products :=
       [ Product.mk 1 "VIP 30" f29_9 f0 30 0 0;
         Product.mk 2 "Power 100" f9_9 f0 0 100 5 ];
     power_logs := [] |}.

(** A run in which the clock stands at [now] and no database call fails. *)
Definition calm : NotifyRun :=
  mkNotifyRun now now now now None None None None None None.

Definition form (fields : list (string * string)) (key : string) : string :=
  match find (fun kv => (fst kv =? key)%string) fields with
  | Some kv => snd kv
  | None => ""
  end.

(** A callback carrying the given form fields. *)
Definition callback (fields : list (string * string)) : gin.Context :=
  gin.mk (fun _ => "") (fun _ d => d) (inl "EOF") None (form fields) "203.0.113.7"
    (inl "not login").

(** A pay request of the logged-in user [alice]. *)
Definition pay_request (data : PayData) : gin.Context :=
  gin.mk (fun _ => "") (fun _ d => d) (inr data) None (fun _ => "") "203.0.113.7"
    (inr alice).

(** The query [order_no], [t], [sign] of a pay URL, as [DoPay] reads it. *)
Definition pay_query (orderNo : string) (t : Z) (sign : string) : gin.Context :=
  gin.mk
    (fun key => if (key =? "order_no")%string then orderNo
                else if (key =? "sign")%string then sign else "")
    (fun key d => if (key =? "t")%string then t else d)
    (inl "EOF") None (fun _ => "") "203.0.113.7" (inl "not login").

(** The signature [DoPay] expects for order 1001 at time [now], and for
    order 1005. *)
Definition sign1001 : string :=
  Eval vm_compute in SHA256.hexdigest (DoPay_signStr h_up "1001" now).
Definition sign1005 : string :=
  Eval vm_compute in SHA256.hexdigest (DoPay_signStr h_up "1005" now).

(** A store whose only order names a pay way the handler does not know. *)
Definition o1005 : Order.t :=
  Order.mk 5 1 1 "alice" "1005" "" "VIP 30" f29_9 OrderNotPaid "cash" "cash"
    (encode vip30) 0.

Definition db_cash : DB :=
  {| orders := [o1005]; users := [alice]; products := []; power_logs := [] |}.

(** A request that [DoPay] accepts at the last second of the timeout. *)
Definition scan1001 : gin.Context := pay_query "1001" now sign1001.
Definition scan1005 : gin.Context := pay_query "1005" now sign1005.
Definition in_time : DoPayRun := mkDoPayRun (now + 600) None None.

(** A handler whose hupi URLs do not parse. *)
Definition h_bad_url : PaymentHandler :=
  mkPaymentHandler (alipay_PayUrlMobile h_up) (alipay_TradeVerify h_up)
    (huPi_Pay h_up) (huPi_Check h_up) (geek_Pay h_up) (wechat_PayUrlNative h_up)
    (wechat_PayUrlH5 h_up) (wechat_TradeVerify h_up) (signKey h_up)
    (OrderPayTimeout h_up) (VipMonthPower h_up) "::hupi" "::hupi"
    (Geek_NotifyURL h_up) (Alipay_NotifyURL h_up) (Wechat_NotifyURL h_up).

Definition vip_product : Product.t := Product.mk 1 "VIP 30" f29_9 f0 30 0 0.

(** A pay request that reaches the creation of order 2001. *)
Definition creating : PayRun := mkPayRun None (inr "2001") CreateInserted now.

(** A user whose balance is negative, and an order of 100 power for
    that user: the credit brings the balance to 0. *)
Definition carol : User.t := User.mk 3 "carol" (-100) 0 false.
Definition o1006 : Order.t := order 6 3 2 "carol" "1006" f9_9 OrderNotPaid topup100.

Definition db_debt : DB :=
  {| orders := [o1006];
     users := [carol];
     products := [Product.mk 2 "Power 100" f9_9 f0 0 100 5];
     power_logs := [] |}.

(** Requests for order 1002 and for the paid order 1004, signed as [DoPay]
    expects. *)
Definition sign1002 : string :=
  Eval vm_compute in SHA256.hexdigest (DoPay_signStr h_up "1002" now).
Definition sign1004 : string :=
  Eval vm_compute in SHA256.hexdigest (DoPay_signStr h_up "1004" now).
Definition scan1002 : gin.Context := pay_query "1002" now sign1002.
Definition scan1004 : gin.Context := pay_query "1004" now sign1004.

End Fixture.

(** * Properties *)

(** ** Machine integers *)

Lemma wrap64_exact (x : Z) : - 2 ^ 63 <= x < 2 ^ 63 -> wrap64 x = x.
Proof.
  intros Hx. unfold wrap64.
  rewrite Z.mod_small by lia. lia.
Qed.

Lemma int_add_exact (a b : Z) : - 2 ^ 63 <= a + b < 2 ^ 63 -> int_add a b = a + b.
Proof. apply wrap64_exact. Qed.

(** ** Queries after writes *)

Lemma OrderStatus_eqb_eq (a b : OrderStatus) : OrderStatus_eqb a b = true <-> a = b.
Proof. destruct a, b; simpl; split; intros E; congruence. Qed.

Lemma OrderStatus_eqb_neq (a b : OrderStatus) : OrderStatus_eqb a b = false <-> a <> b.
Proof. destruct a, b; simpl; split; intros E; congruence. Qed.

Lemma find_order_key (db : DB) (orderNo : string) (o : Order.t) :
  find_order db orderNo = Some o -> Order.OrderNo o = orderNo.
Proof.
  unfold find_order. intros E. apply find_some in E as [_ E].
  now apply String.eqb_eq.
Qed.

Lemma find_order_In (db : DB) (orderNo : string) (o : Order.t) :
  find_order db orderNo = Some o -> In o (orders db).
Proof. unfold find_order. intros E. now apply find_some in E. Qed.

Lemma find_user_key (db : DB) (id : Z) (u : User.t) :
  find_user db id = Some u -> User.Id u = id.
Proof.
  unfold find_user. intros E. apply find_some in E as [_ E]. lia.
Qed.

Lemma find_user_save_user (db : DB) (id : Z) (u u' : User.t) :
  find_user db id = Some u -> User.Id u' = User.Id u ->
  find_user (save_user u' db) id = Some (updated_user u' u).
Proof.
  intros E Hid. pose proof (find_user_key _ _ _ E) as Hk.
  unfold find_user, save_user in *. simpl.
  induction (users db) as [|r rs IH]; simpl in *; [discriminate|].
  destruct (User.Id r =? id) eqn:Hr.
  - injection E as ->.
    rewrite Hid, Z.eqb_refl. simpl. now rewrite Hr.
  - replace (User.Id r =? User.Id u') with false by (symmetry; lia).
    rewrite Hr. now apply IH.
Qed.

(** After [Updates(&o')] the first row with the order number is a row
    with the key of [o'], updated. *)
Lemma find_order_save_order (db : DB) (orderNo : string) (o o' : Order.t) :
  find_order db orderNo = Some o ->
  Order.Id o' = Order.Id o -> Order.OrderNo o' = Order.OrderNo o ->
  exists row,
    In row (orders db) /\ Order.Id row = Order.Id o /\
    find_order (save_order o' db) orderNo = Some (updated_order o' row).
Proof.
  intros E Hid Hno. pose proof (find_order_key _ _ _ E) as Hk.
  unfold find_order, save_order in *. simpl.
  induction (orders db) as [|r rs IH]; simpl in *; [discriminate|].
  destruct (Order.Id r =? Order.Id o') eqn:Hr.
  - destruct (Order.OrderNo r =? orderNo)%string eqn:Hn.
    + exists r. simpl. unfold assign_string.
      split; [now left|]. split; [lia|].
      destruct (Order.OrderNo o' =? "")%string; [now rewrite Hn|].
      replace (Order.OrderNo o' =? orderNo)%string with true; [reflexivity|].
      symmetry. apply String.eqb_eq. congruence.
    + simpl. unfold assign_string.
      destruct (Order.OrderNo o' =? "")%string eqn:He.
      * rewrite Hn. destruct (IH E) as (row & Hin & Hrow & Hfind).
        exists row. split; [now right|]. now split.
      * replace (Order.OrderNo o' =? orderNo)%string with true
          by (symmetry; apply String.eqb_eq; congruence).
        exists r. split; [now left|]. split; [lia|reflexivity].
  - destruct (Order.OrderNo r =? orderNo)%string eqn:Hn.
    + injection E as ->. lia.
    + destruct (IH E) as (row & Hin & Hrow & Hfind).
      exists row. split; [now right|]. now split.
Qed.


Section SuccessPath.
Context {RT : Runtime}.
Variable h : PaymentHandler.

Lemma credit_Id (run : NotifyRun) (remark : OrderRemark.t) (user : User.t) :
  User.Id (fst (fst (credit h run remark user))) = User.Id user.
Proof.
  unfold credit.
  destruct (OrderRemark.Days remark >? 0); [|reflexivity].
  now destruct (User.ExpiredTime user >=? now_expiry run).
Qed.

(** What [Updates] stores of a credited user: the credited struct itself,
    unless a credited field came out as zero while the stored one is not. *)
Lemma updated_user_credit (run : NotifyRun) (remark : OrderRemark.t) (user : User.t) :
  let user' := fst (fst (credit h run remark user)) in
  (User.Power user' = 0 -> User.Power user = 0) ->
  (User.ExpiredTime user' = 0 -> User.ExpiredTime user = 0) ->
  updated_user user' user = user'.
Proof.
  intros user' Hp He.
  assert (Hid : User.Id user' = User.Id user) by apply credit_Id.
  assert (Hname : User.Username user' = User.Username user).
  { subst user'. unfold credit.
    destruct (OrderRemark.Days remark >? 0); [|reflexivity].
    now destruct (User.ExpiredTime user >=? now_expiry run). }
  assert (Hvip : User.Vip user' = false -> User.Vip user = false).
  { subst user'. unfold credit.
    destruct (OrderRemark.Days remark >? 0); [|auto].
    destruct (User.ExpiredTime user >=? now_expiry run); discriminate. }
  destruct user' as [id name power expiry vip]. simpl in *. subst id name.
  unfold updated_user, assign_string, assign_Z, assign_bool. simpl. f_equal.
  - now destruct (User.Username user =? "")%string.
  - destruct (Z.eqb_spec power 0) as [E|_]; [|reflexivity]. now rewrite Hp, E.
  - destruct (Z.eqb_spec expiry 0) as [E|_]; [|reflexivity]. now rewrite He, E.
  - destruct vip; [reflexivity|]. now apply Hvip.
Qed.

(** [notify] on its success path: the conditions under which every
    fallible line succeeds, and the store that results. *)
Lemma notify_success (run : NotifyRun) (orderNo tradeNo : string) (db : DB)
  (order : Order.t) (user : User.t) (remark : OrderRemark.t) :
  notify_fetch run orderNo db = inr order ->
  Order.Status order <> OrderPaidSuccess ->
  First (fault_user run) (find_user db (Order.UserId order)) = inr user ->
  JsonDecode (Order.Remark order) = inr remark ->
  fault_save_user run = None ->
  fault_save_order run = None ->
  notify h run orderNo tradeNo db
  = (None, settled_db h run order tradeNo user remark db).
Proof.
  intros Hf Hs Hu Hd Hsu Hso.
  unfold notify, notify_locked, settled_db. rewrite Hf.
  apply OrderStatus_eqb_neq in Hs. rewrite Hs, Hu, Hd.
  destruct (credit h run remark user) as [[user' opt] power].
  unfold Updates_user, Updates_order. rewrite Hsu, Hso. reflexivity.
Qed.

(** Conversely, a call that returns [nil] for an order that was not yet
    paid went through every line of the success path. *)
Lemma notify_success_inv (run : NotifyRun) (orderNo tradeNo : string) (db db' : DB)
  (order : Order.t) :
  notify_fetch run orderNo db = inr order ->
  Order.Status order <> OrderPaidSuccess ->
  notify h run orderNo tradeNo db = (None, db') ->
  exists user remark,
    First (fault_user run) (find_user db (Order.UserId order)) = inr user /\
    JsonDecode (Order.Remark order) = inr remark /\
    fault_save_user run = None /\
    fault_save_order run = None /\
    db' = settled_db h run order tradeNo user remark db.
Proof.
  intros Hf Hs Hn.
  unfold notify, notify_locked in Hn. rewrite Hf in Hn.
  pose proof Hs as Hs'. apply OrderStatus_eqb_neq in Hs'. rewrite Hs' in Hn.
  destruct (First (fault_user run) (find_user db (Order.UserId order)))
    as [e|user] eqn:Hu; [discriminate|].
  destruct (JsonDecode (Order.Remark order)) as [e|remark] eqn:Hd; [discriminate|].
  exists user, remark.
  unfold settled_db.
  destruct (credit h run remark user) as [[user' opt] power].
  unfold Updates_user, Updates_order in *.
  destruct (fault_save_user run); [discriminate|].
  destruct (fault_save_order run); [discriminate|].
  injection Hn as <-. repeat split; reflexivity.
Qed.

End SuccessPath.

Lemma First_inr {A : Type} (fault : option error) (row : option A) (r : A) :
  First fault row = inr r -> fault = None /\ row = Some r.
Proof.
  unfold First. destruct fault, row; intros E; try discriminate.
  injection E as ->. now split.
Qed.

Section Settled.
Context {RT : Runtime}.
Variable h : PaymentHandler.
Variables (run : NotifyRun) (order : Order.t) (tradeNo : string).
Variables (user : User.t) (remark : OrderRemark.t) (db : DB).

Let db' : DB := settled_db h run order tradeNo user remark db.
Let user' : User.t := fst (fst (credit h run remark user)).
Let opt : string := snd (fst (credit h run remark user)).
Let power : Z := snd (credit h run remark user).

Lemma settled_users : users db' = users (save_user user' db).
Proof.
  subst db' user'. unfold settled_db.
  destruct (credit h run remark user) as [[u o] p]. simpl.
  destruct (fault_sales run), (p >? 0), (fault_log run); reflexivity.
Qed.

Lemma settled_orders :
  orders db' = orders (save_order (paid_order run order tradeNo) db).
Proof.
  subst db'. unfold settled_db.
  destruct (credit h run remark user) as [[u o] p]. simpl.
  destruct (fault_sales run), (p >? 0), (fault_log run); reflexivity.
Qed.

Lemma settled_products :
  products db'
  = products (snd (UpdateColumn_sales (fault_sales run) (Order.ProductId order) db)).
Proof.
  subst db'. unfold settled_db.
  destruct (credit h run remark user) as [[u o] p]. simpl.
  destruct (fault_sales run), (p >? 0), (fault_log run); reflexivity.
Qed.

Lemma settled_power_logs :
  power_logs db'
  = if power >? 0
    then power_logs (snd (Create_power_log (fault_log run)
                            (power_log run user' (paid_order run order tradeNo) opt power) db))
    else power_logs db.
Proof.
  subst db' user' opt power. unfold settled_db.
  destruct (credit h run remark user) as [[u o] p]. simpl.
  destruct (fault_sales run), (p >? 0), (fault_log run); reflexivity.
Qed.

Lemma settled_find_user :
  find_user db (Order.UserId order) = Some user ->
  find_user db' (Order.UserId order) = Some (updated_user user' user).
Proof.
  intros E. unfold find_user. rewrite settled_users.
  apply (find_user_save_user db _ user user' E). apply credit_Id.
Qed.

Lemma settled_find_order (orderNo : string) :
  find_order db orderNo = Some order ->
  exists row,
    In row (orders db) /\ Order.Id row = Order.Id order /\
    find_order db' orderNo = Some (updated_order (paid_order run order tradeNo) row).
Proof.
  intros E. unfold find_order. rewrite settled_orders.
  now apply (find_order_save_order db _ order).
Qed.

End Settled.

Lemma notify_fetch_inr (run : NotifyRun) (orderNo : string) (db : DB) (order : Order.t) :
  notify_fetch run orderNo db = inr order ->
  fault_order run = None /\ find_order db orderNo = Some order.
Proof.
  unfold notify_fetch.
  destruct (First (fault_order run) (find_order db orderNo)) as [e|o] eqn:E;
    [discriminate|].
  intros [= ->]. now apply First_inr.
Qed.

(** ** Crediting *)

(** C2, on the code.  A settlement computes the credit of lines 438-455
    and hands the user to [Updates].  For [Days > 0] a running
    subscription is extended from its old expiry by [Days] calendar days
    with no power credited, a lapsed one starts at the current time and
    the configured [VipMonthPower] is added; both set [Vip].  For
    [Days <= 0] the remark's [Power] is added.  The stored row takes each
    of these values except one that came out as 0: then the column keeps
    what was stored before. *)
Theorem notify_credits_by_remark {RT : Runtime} (h : PaymentHandler)
  (run : NotifyRun) (orderNo tradeNo : string) (db db' : DB) (order : Order.t)
  (user : User.t) (remark : OrderRemark.t) :
  notify_fetch run orderNo db = inr order ->
  Order.Status order <> OrderPaidSuccess ->
  notify h run orderNo tradeNo db = (None, db') ->
  find_user db (Order.UserId order) = Some user ->
  JsonDecode (Order.Remark order) = inr remark ->
  - 2 ^ 63 <= User.Power user + VipMonthPower h < 2 ^ 63 ->
  - 2 ^ 63 <= User.Power user + OrderRemark.Power remark < 2 ^ 63 ->
  exists user',
    find_user db' (Order.UserId order) = Some user' /\
    (OrderRemark.Days remark > 0 -> User.ExpiredTime user >= now_expiry run ->
       let expiry := AddDate (User.ExpiredTime user) (OrderRemark.Days remark) in
       User.Vip user' = true /\
       User.Power user' = User.Power user /\
       User.ExpiredTime user' = if expiry =? 0 then User.ExpiredTime user else expiry) /\
    (OrderRemark.Days remark > 0 -> User.ExpiredTime user < now_expiry run ->
       let expiry := AddDate (now_renew run) (OrderRemark.Days remark) in
       let power := User.Power user + VipMonthPower h in
       User.Vip user' = true /\
       User.Power user' = (if power =? 0 then User.Power user else power) /\
       User.ExpiredTime user' = if expiry =? 0 then User.ExpiredTime user else expiry) /\
    (OrderRemark.Days remark <= 0 ->
       let power := User.Power user + OrderRemark.Power remark in
       User.Vip user' = User.Vip user /\
       User.Power user' = (if power =? 0 then User.Power user else power) /\
       User.ExpiredTime user' = User.ExpiredTime user).
Proof.
  intros Hf Hs Hn Hu Hd Hbonus Hpower.
  destruct (notify_success_inv h run orderNo tradeNo db db' order Hf Hs Hn)
    as (user0 & remark0 & Hu0 & Hd0 & _ & _ & ->).
  apply First_inr in Hu0 as [_ Hu0].
  assert (user0 = user) by congruence. assert (remark0 = remark) by congruence.
  subst user0 remark0.
  exists (updated_user (fst (fst (credit h run remark user))) user).
  split; [now apply settled_find_user|].
  unfold credit, updated_user, assign_Z, assign_bool.
  split; [|split].
  - intros Hdays He.
    replace (OrderRemark.Days remark >? 0) with true by (symmetry; lia).
    replace (User.ExpiredTime user >=? now_expiry run) with true by (symmetry; lia).
    simpl. repeat split.
    now destruct (User.Power user =? 0) eqn:E; [|reflexivity].
  - intros Hdays He.
    replace (OrderRemark.Days remark >? 0) with true by (symmetry; lia).
    replace (User.ExpiredTime user >=? now_expiry run) with false by (symmetry; lia).
    simpl. rewrite int_add_exact by lia. now repeat split.
  - intros Hdays.
    replace (OrderRemark.Days remark >? 0) with false by (symmetry; lia).
    simpl. rewrite int_add_exact by lia. repeat split.
    + now destruct (User.Vip user).
    + now destruct (User.ExpiredTime user =? 0) eqn:E; [apply Z.eqb_eq in E|].
Qed.

Lemma notify_credits_by_remark_witness :
  exists user',
    find_user (snd (notify Fixture.h_up Fixture.calm "1006" "T6" Fixture.db_debt)) 3
    = Some user' /\
    (0 > 0 -> 0 >= Fixture.now ->
       let expiry := AddDate 0 0 in
       User.Vip user' = true /\
       User.Power user' = -100 /\
       User.ExpiredTime user' = if expiry =? 0 then 0 else expiry) /\
    (0 > 0 -> 0 < Fixture.now ->
       let expiry := AddDate Fixture.now 0 in
       let power := -100 + 1000 in
       User.Vip user' = true /\
       User.Power user' = (if power =? 0 then -100 else power) /\
       User.ExpiredTime user' = if expiry =? 0 then 0 else expiry) /\
    (0 <= 0 ->
       let power := -100 + 100 in
       User.Vip user' = false /\
       User.Power user' = (if power =? 0 then -100 else power) /\
       User.ExpiredTime user' = 0).
Proof.
  apply (notify_credits_by_remark Fixture.h_up Fixture.calm "1006" "T6"
           Fixture.db_debt _ Fixture.o1006 Fixture.carol Fixture.topup100).
  - reflexivity.
  - discriminate.
  - vm_compute. reflexivity.
  - reflexivity.
  - reflexivity.
  - simpl. lia.
  - simpl. lia.
Defined.

(** At that input the balance the code computes is 0, the audit row
    records it, and the stored balance is still -100. *)
Lemma credit_to_zero_is_not_stored :
  let res := notify Fixture.h_up Fixture.calm "1006" "T6" Fixture.db_debt in
  fst res = None /\
  option_map User.Power (find_user Fixture.db_debt 3) = Some (-100) /\
  option_map User.Power (find_user (snd res) 3) = Some (-100) /\
  map PowerLog.Amount (power_logs (snd res)) = [100] /\
  map PowerLog.Balance (power_logs (snd res)) = [0].
Proof. vm_compute. repeat split; reflexivity. Qed.

(** ** The idempotency gate *)

(** C3. When the order that [notify] fetched is already [OrderPaidSuccess],
    [notify] returns [nil] and leaves the store as it was, and the
    notification endpoint answers the provider with "success". *)
Theorem notify_skips_paid_order {RT : Runtime} (h : PaymentHandler)
  (c : gin.Context) (run : NotifyRun) (orderNo tradeNo : string) (db : DB)
  (order : Order.t) :
  notify_fetch run orderNo db = inr order ->
  Order.Status order = OrderPaidSuccess ->
  gin.ParseForm c = None ->
  gin.Form_Get c "trade_order_id" = orderNo ->
  gin.Form_Get c "open_order_id" = tradeNo ->
  huPi_Check h tradeNo = None ->
  notify h run orderNo tradeNo db = (None, db) /\
  HuPiPayNotify h c run db = (c_String StatusOK "success", db).
Proof.
  intros Hf Hs Hp Ho Ht Hc.
  assert (Hn : notify h run orderNo tradeNo db = (None, db)).
  { unfold notify, notify_locked. rewrite Hf, Hs. reflexivity. }
  split; [exact Hn|].
  unfold HuPiPayNotify. rewrite Hp, Ho, Ht, Hc, Hn. reflexivity.
Qed.

Lemma notify_skips_paid_order_witness :
  notify Fixture.h_up Fixture.calm "1004" "T0" Fixture.db0 = (None, Fixture.db0) /\
  HuPiPayNotify Fixture.h_up
    (Fixture.callback [("trade_order_id", "1004"); ("open_order_id", "T0")])
    Fixture.calm Fixture.db0
  = (c_String StatusOK "success", Fixture.db0).
Proof.
  apply (notify_skips_paid_order Fixture.h_up _ Fixture.calm "1004" "T0"
           Fixture.db0 Fixture.o1004); reflexivity.
Defined.

(** ** The audit row *)

(** C5, as the code has it.  A settlement that credits a positive power
    appends, unless the insert itself fails, one [PowerLog] row with the
    user, the credited power, the balance after the credit, the provider
    and a remark made of the reason, the order amount and the order
    number.  A settlement that credits no power appends nothing; the
    extension of a running subscription is such a settlement. *)
Theorem notify_logs_positive_power {RT : Runtime} (h : PaymentHandler)
  (run : NotifyRun) (orderNo tradeNo : string) (db db' : DB) (order : Order.t) :
  notify_fetch run orderNo db = inr order ->
  Order.Status order <> OrderPaidSuccess ->
  notify h run orderNo tradeNo db = (None, db') ->
  exists user remark user' opt power,
    find_user db (Order.UserId order) = Some user /\
    JsonDecode (Order.Remark order) = inr remark /\
    credit h run remark user = (user', opt, power) /\
    (power > 0 -> fault_log run = None ->
       power_logs db'
       = (power_logs db ++
          [PowerLog.mk (User.Id user) (User.Username user) PowerRecharge power
             (User.Power user') PowerAdd (Order.PayWay order)
             (opt ++ "，金额：" ++ sprintf_f (Order.Amount order)
                  ++ "，订单号：" ++ orderNo)
             (now_log run)])%list) /\
    (power <= 0 -> power_logs db' = power_logs db) /\
    (OrderRemark.Days remark > 0 -> User.ExpiredTime user >= now_expiry run ->
       power = 0 /\ user' = User.with_Vip true
                    (User.with_ExpiredTime
                       (AddDate (User.ExpiredTime user) (OrderRemark.Days remark)) user)).
Proof.
  intros Hf Hs Hn.
  destruct (notify_success_inv h run orderNo tradeNo db db' order Hf Hs Hn)
    as (user & remark & Hu & Hd & _ & _ & ->).
  apply First_inr in Hu as [_ Hu].
  apply notify_fetch_inr in Hf as [_ Hf]. apply find_order_key in Hf.
  destruct (credit h run remark user) as [[user' opt] power] eqn:Hc.
  exists user, remark, user', opt, power.
  split; [exact Hu|]. split; [exact Hd|]. split; [exact Hc|].
  assert (Hid : User.Id user' = User.Id user /\ User.Username user' = User.Username user).
  { revert Hc. unfold credit.
    destruct (OrderRemark.Days remark >? 0);
      [destruct (User.ExpiredTime user >=? now_expiry run)|];
      intros [= <- _ _]; now split. }
  destruct Hid as [Hid Hname].
  rewrite settled_power_logs, Hc. simpl.
  split; [|split].
  - intros Hp Hl.
    replace (power >? 0) with true by (symmetry; lia).
    rewrite Hl. simpl. unfold power_log. simpl.
    now rewrite Hid, Hname, Hf.
  - intros Hp. now replace (power >? 0) with false by (symmetry; lia).
  - intros Hdays He. revert Hc. unfold credit.
    replace (OrderRemark.Days remark >? 0) with true by (symmetry; lia).
    replace (User.ExpiredTime user >=? now_expiry run) with true by (symmetry; lia).
    intros [= <- _ <-]. now split.
Qed.

Lemma notify_logs_positive_power_witness :
  exists user remark user' opt power,
    find_user Fixture.db0 (Order.UserId Fixture.o1002) = Some user /\
    JsonDecode (Order.Remark Fixture.o1002) = inr remark /\
    credit Fixture.h_up Fixture.calm remark user = (user', opt, power) /\
    (power > 0 -> fault_log Fixture.calm = None ->
       power_logs (snd (notify Fixture.h_up Fixture.calm "1002" "T2" Fixture.db0))
       = (power_logs Fixture.db0 ++
          [PowerLog.mk (User.Id user) (User.Username user) PowerRecharge power
             (User.Power user') PowerAdd (Order.PayWay Fixture.o1002)
             (opt ++ "，金额：" ++ sprintf_f (Order.Amount Fixture.o1002)
                  ++ "，订单号：" ++ "1002")
             (now_log Fixture.calm)])%list) /\
    (power <= 0 ->
       power_logs (snd (notify Fixture.h_up Fixture.calm "1002" "T2" Fixture.db0))
       = power_logs Fixture.db0) /\
    (OrderRemark.Days remark > 0 ->
     User.ExpiredTime user >= now_expiry Fixture.calm ->
       power = 0 /\ user' = User.with_Vip true
                    (User.with_ExpiredTime
                       (AddDate (User.ExpiredTime user) (OrderRemark.Days remark)) user)).
Proof.
  apply (notify_logs_positive_power Fixture.h_up Fixture.calm "1002" "T2" Fixture.db0).
  - reflexivity.
  - discriminate.
  - vm_compute. reflexivity.
Defined.

(** C5, as stated, fails where a running subscription is extended: the
    settlement of order 1003 succeeds, moves the expiry of its user by 30
    days and marks the order paid, and the audit table stays empty. *)
Lemma extension_writes_no_power_log :
  let res := notify Fixture.h_up Fixture.calm "1003" "T3" Fixture.db0 in
  fst res = None /\
  option_map Order.Status (find_order (snd res) "1003") = Some OrderPaidSuccess /\
  option_map User.ExpiredTime (find_user (snd res) 2) = Some (1800000000 + 30 * 86400) /\
  power_logs Fixture.db0 = [] /\
  power_logs (snd res) = [].
Proof. vm_compute. repeat split; reflexivity. Qed.

(** ** Unknown orders *)

(** C6, as the code has it.  When no stored order has the callback's
    order number, [notify] returns the error of the order query and
    leaves the store as it was, and the endpoint answers "fail", the
    same answer as for every other failed settlement. *)
Theorem notify_unknown_order_answers_fail {RT : Runtime} (h : PaymentHandler)
  (c : gin.Context) (run : NotifyRun) (orderNo tradeNo : string) (db : DB) :
  find_order db orderNo = None ->
  gin.ParseForm c = None ->
  gin.Form_Get c "trade_order_id" = orderNo ->
  gin.Form_Get c "open_order_id" = tradeNo ->
  huPi_Check h tradeNo = None ->
  (exists e, notify h run orderNo tradeNo db
             = (Some ("error with fetch order: " ++ e), db)) /\
  HuPiPayNotify h c run db = (c_String StatusOK "fail", db).
Proof.
  intros Hf Hp Ho Ht Hc.
  assert (Hn : exists e, notify h run orderNo tradeNo db
                         = (Some ("error with fetch order: " ++ e), db)).
  { unfold notify, notify_fetch, First. rewrite Hf.
    destruct (fault_order run) as [e|]; eexists; reflexivity. }
  split; [exact Hn|].
  destruct Hn as [e Hn].
  unfold HuPiPayNotify. rewrite Hp, Ho, Ht, Hc, Hn. reflexivity.
Qed.

Lemma notify_unknown_order_answers_fail_witness :
  (exists e, notify Fixture.h_up Fixture.calm "9999" "T9" Fixture.db0
             = (Some ("error with fetch order: " ++ e), Fixture.db0)) /\
  HuPiPayNotify Fixture.h_up
    (Fixture.callback [("trade_order_id", "9999"); ("open_order_id", "T9")])
    Fixture.calm Fixture.db0
  = (c_String StatusOK "fail", Fixture.db0).
Proof.
  apply (notify_unknown_order_answers_fail Fixture.h_up _ Fixture.calm "9999" "T9");
    reflexivity.
Defined.

(** C6, as stated, fails: a verified callback for the unknown order 9999
    is answered "fail", which is not the success token, so the provider
    delivers it again. *)
Lemma unknown_order_is_retried :
  let c := Fixture.callback [("trade_order_id", "9999"); ("open_order_id", "T9")] in
  find_order Fixture.db0 "9999" = None /\
  notify Fixture.h_up Fixture.calm "9999" "T9" Fixture.db0
  = (Some "error with fetch order: record not found", Fixture.db0) /\
  fst (HuPiPayNotify Fixture.h_up c Fixture.calm Fixture.db0)
  = c_String StatusOK "fail" /\
  provider_retries (fst (HuPiPayNotify Fixture.h_up c Fixture.calm Fixture.db0)).
Proof.
  repeat split; try reflexivity.
  unfold provider_retries. vm_compute. discriminate.
Qed.

(** ** Writes after the order row *)

(** What [Updates] stores of the order of line 469: the status is never
    zero and is always written; the trade number and the pay time are
    written unless they are empty or 0. *)
Lemma updated_paid_order (run : NotifyRun) (order row : Order.t) (tradeNo : string) :
  let o := updated_order (paid_order run order tradeNo) row in
  Order.Id o = Order.Id row /\
  Order.Status o = OrderPaidSuccess /\
  (tradeNo <> "" -> Order.TradeNo o = tradeNo) /\
  (now_pay run <> 0 -> Order.PayTime o = now_pay run).
Proof.
  simpl. unfold assign_string, assign_Z. repeat split.
  - intros H. apply String.eqb_neq in H. now rewrite H.
  - intros H. apply Z.eqb_neq in H. now rewrite H.
Qed.

(** C10. Once the user row and the order row are written, [notify]
    returns [nil] and the endpoint answers "success", whatever becomes of
    the sales counter and of the audit row: when those writes fail, the
    products and the audit table are left as they were.  Written means
    what [Updates] writes: the user row updated from the credited user,
    and the order row with status [OrderPaidSuccess], with the trade
    number and the pay time unless these are empty or 0. *)
Theorem notify_ignores_late_failures {RT : Runtime} (h : PaymentHandler)
  (c : gin.Context) (run : NotifyRun) (orderNo tradeNo : string) (db : DB)
  (order : Order.t) (user : User.t) (remark : OrderRemark.t) :
  notify_fetch run orderNo db = inr order ->
  Order.Status order <> OrderPaidSuccess ->
  First (fault_user run) (find_user db (Order.UserId order)) = inr user ->
  JsonDecode (Order.Remark order) = inr remark ->
  fault_save_user run = None ->
  fault_save_order run = None ->
  gin.ParseForm c = None ->
  gin.Form_Get c "trade_order_id" = orderNo ->
  gin.Form_Get c "open_order_id" = tradeNo ->
  huPi_Check h tradeNo = None ->
  let db' := snd (notify h run orderNo tradeNo db) in
  fst (notify h run orderNo tradeNo db) = None /\
  HuPiPayNotify h c run db = (c_String StatusOK "success", db') /\
  find_user db' (Order.UserId order)
  = Some (updated_user (fst (fst (credit h run remark user))) user) /\
  (exists stored,
     find_order db' orderNo = Some stored /\
     Order.Status stored = OrderPaidSuccess /\
     (tradeNo <> "" -> Order.TradeNo stored = tradeNo) /\
     (now_pay run <> 0 -> Order.PayTime stored = now_pay run)) /\
  (fault_sales run <> None -> products db' = products db) /\
  (fault_log run <> None -> power_logs db' = power_logs db).
Proof.
  intros Hf Hs Hu Hd Hsu Hso Hp Ho Ht Hc db'.
  pose proof (notify_success h run orderNo tradeNo db order user remark
                Hf Hs Hu Hd Hsu Hso) as Hn.
  subst db'. unfold HuPiPayNotify. rewrite Hp, Ho, Ht, Hc, Hn. simpl.
  apply First_inr in Hu as [_ Hu].
  apply notify_fetch_inr in Hf as [_ Hf].
  split; [reflexivity|]. split; [reflexivity|].
  split; [now apply settled_find_user|]. split; [|split].
  - destruct (settled_find_order h run order tradeNo user remark db orderNo Hf)
      as (row & _ & _ & Hfind).
    exists (updated_order (paid_order run order tradeNo) row).
    split; [exact Hfind|].
    apply (updated_paid_order run order row tradeNo).
  - intros Hfs. rewrite settled_products.
    destruct (fault_sales run); [reflexivity|congruence].
  - intros Hfl. rewrite settled_power_logs.
    destruct (fault_log run); [|congruence].
    now destruct (snd (credit h run remark user) >? 0).
Qed.

Lemma notify_ignores_late_failures_witness :
  let run := mkNotifyRun Fixture.now Fixture.now Fixture.now Fixture.now
               None None None None (Some "deadlock") (Some "deadlock") in
  let c := Fixture.callback [("trade_order_id", "1002"); ("open_order_id", "T2")] in
  let db' := snd (notify Fixture.h_up run "1002" "T2" Fixture.db0) in
  fst (notify Fixture.h_up run "1002" "T2" Fixture.db0) = None /\
  HuPiPayNotify Fixture.h_up c run Fixture.db0 = (c_String StatusOK "success", db') /\
  find_user db' (Order.UserId Fixture.o1002)
  = Some (updated_user (fst (fst (credit Fixture.h_up run Fixture.topup100 Fixture.alice)))
            Fixture.alice) /\
  (exists stored,
     find_order db' "1002" = Some stored /\
     Order.Status stored = OrderPaidSuccess /\
     ("T2" <> "" -> Order.TradeNo stored = "T2") /\
     (now_pay run <> 0 -> Order.PayTime stored = now_pay run)) /\
  (fault_sales run <> None -> products db' = products Fixture.db0) /\
  (fault_log run <> None -> power_logs db' = power_logs Fixture.db0).
Proof.
  intros run c.
  apply (notify_ignores_late_failures Fixture.h_up c run "1002" "T2" Fixture.db0
           Fixture.o1002 Fixture.alice Fixture.topup100);
    first [reflexivity | discriminate].
Defined.

(** ** Acknowledgments *)

Lemma ack_is_ack (res : option error * DB) : is_ack (fst (ack res)).
Proof. destruct res as [[e|] db]; simpl; [right|left]; reflexivity. Qed.

(** C9, as the code has it.  [HuPiPayNotify] and [AlipayNotify] answer
    "success" or "fail" on every path.  [PayJsNotify] does so when the
    form cannot be parsed or [return_code] is "1", and writes nothing
    otherwise.  [WechatPayNotify] does so when the form cannot be parsed
    or the verification succeeded. *)
Theorem endpoints_acknowledge {RT : Runtime} (h : PaymentHandler)
  (c : gin.Context) (run : NotifyRun) (db : DB) :
  is_ack (fst (HuPiPayNotify h c run db)) /\
  is_ack (fst (AlipayNotify h c run db)) /\
  (gin.ParseForm c <> None \/ gin.Form_Get c "return_code" = "1" ->
   is_ack (fst (PayJsNotify h c run db))) /\
  (gin.ParseForm c = None -> gin.Form_Get c "return_code" <> "1" ->
   PayJsNotify h c run db = (NoResponse, db)) /\
  (gin.ParseForm c <> None \/ payment.Success (wechat_TradeVerify h c) = true ->
   is_ack (fst (WechatPayNotify h c run db))).
Proof.
  assert (Hfail : is_ack (c_String StatusOK "fail")) by (right; reflexivity).
  repeat split.
  - unfold HuPiPayNotify.
    destruct (gin.ParseForm c); [exact Hfail|].
    destruct (huPi_Check h _); [exact Hfail|apply ack_is_ack].
  - unfold AlipayNotify.
    destruct (gin.ParseForm c); [exact Hfail|].
    destruct (payment.Success _); simpl; [apply ack_is_ack|exact Hfail].
  - intros Hc. unfold PayJsNotify.
    destruct (gin.ParseForm c); [exact Hfail|].
    destruct Hc as [Hc|Hc]; [congruence|].
    rewrite Hc. simpl. apply ack_is_ack.
  - intros Hp Hc. unfold PayJsNotify. rewrite Hp.
    apply String.eqb_neq in Hc. rewrite Hc. reflexivity.
  - intros Hc. unfold WechatPayNotify.
    destruct (gin.ParseForm c); [exact Hfail|].
    destruct Hc as [Hc|Hc]; [congruence|].
    rewrite Hc. simpl. apply ack_is_ack.
Qed.

Lemma endpoints_acknowledge_witness :
  let paid := Fixture.callback
                [("out_trade_no", "1001"); ("return_code", "1");
                 ("payjs_order_id", "T1"); ("trade_status", "TRADE_SUCCESS");
                 ("trade_no", "T1")] in
  let unpaid := Fixture.callback [("out_trade_no", "1001"); ("return_code", "0")] in
  is_ack (fst (PayJsNotify Fixture.h_up paid Fixture.calm Fixture.db0)) /\
  is_ack (fst (WechatPayNotify Fixture.h_up paid Fixture.calm Fixture.db0)) /\
  PayJsNotify Fixture.h_up unpaid Fixture.calm Fixture.db0 = (NoResponse, Fixture.db0).
Proof.
  intros paid unpaid.
  destruct (endpoints_acknowledge Fixture.h_up paid Fixture.calm Fixture.db0)
    as (_ & _ & Hjs & _ & Hwx).
  destruct (endpoints_acknowledge Fixture.h_up unpaid Fixture.calm Fixture.db0)
    as (_ & _ & _ & Hno & _).
  split; [apply Hjs; right; reflexivity|].
  split; [apply Hwx; right; reflexivity|].
  apply Hno; [reflexivity|discriminate].
Defined.

(** C9, as stated, fails in [PayJsNotify]: a callback that reports a
    failed payment ([return_code] other than "1") returns at line 586
    before anything is written. *)
Lemma payjs_failed_payment_gets_no_answer :
  let c := Fixture.callback [("out_trade_no", "1001"); ("return_code", "0")] in
  fst (PayJsNotify Fixture.h_up c Fixture.calm Fixture.db0) = NoResponse /\
  ~ is_ack (fst (PayJsNotify Fixture.h_up c Fixture.calm Fixture.db0)).
Proof.
  split; [reflexivity|].
  intros [E|E]; vm_compute in E; discriminate.
Qed.

(** ** Order creation and the provider call *)

Lemma find_order_insert_order (db : DB) (orderNo : string) (o : Order.t) :
  find_order db orderNo = None -> Order.OrderNo o = orderNo ->
  find_order (insert_order o db) orderNo = Some (Order.with_Id (next_order_id db) o).
Proof.
  intros E Hno. unfold find_order, insert_order in *. simpl.
  generalize (next_order_id db). intros id.
  induction (orders db) as [|r rs IH]; simpl in *.
  - replace (Order.OrderNo o =? orderNo)%string with true; [reflexivity|].
    symmetry. now apply String.eqb_eq.
  - destruct (Order.OrderNo r =? orderNo)%string; [discriminate|now apply IH].
Qed.

(** C7, as the code has it.  [Mobile] calls the provider before it stores
    the order: when that call fails, the error goes to the caller and the
    store is left as it was, without a row for the order.  [PayQrcode]
    calls no provider: it stores the order as [OrderNotPaid] and then
    answers with the signed pay URL and its QR image, or, when the logo,
    the notify URL or the QR code fail, with that error; the order stays
    stored either way. *)
Theorem provider_failure_during_pay_url {RT : Runtime} (h : PaymentHandler)
  (c : gin.Context) (run : PayRun) (db : DB) (data : PayData)
  (product : Product.t) (orderNo notifyURL : string) (user : User.t) (err : error) :
  gin.ShouldBindJSON c = inr data ->
  First (pay_fault_product run) (find_product db (pd_ProductId data)) = inr product ->
  pay_snowflake run = inr orderNo ->
  gin.GetLoginUser c = inr user ->
  PayQrcode_notifyURL h (pd_PayWay data) = Some notifyURL ->
  find_order db orderNo = None ->
  pay_create run = CreateInserted ->
  let amount := DecimalSub (Product.Price product) (Product.Discount product) in
  let order := new_order user product orderNo amount data in
  let signed (scheme host : string) : string :=
    scheme ++ "://" ++ host ++ "/api/payment/doPay?order_no=" ++ orderNo
    ++ "&pay_way=" ++ pd_PayWay data ++ "&pay_type=" ++ pd_PayType data
    ++ "&t=" ++ sprintf_d (pay_now run) ++ "&sign="
    ++ Sha256 (orderNo ++ "-" ++ pd_PayWay data ++ "-" ++ sprintf_d (pay_now run)
               ++ "-" ++ signKey h) in
  ((pd_PayWay data = "hupi" /\
    exists scheme host,
      url_Parse (HuPi_ReturnURL h) = inr (scheme, host) /\
      huPi_Pay h
        (payment.mkHuPiPayReq "1.1" orderNo (sprintf_f amount) (Product.Name product)
           (HuPi_NotifyURL h) (HuPi_ReturnURL h) (HuPi_ReturnURL h) "极客学长"
           (scheme ++ "://" ++ host) "WAP") = inl err) \/
   (pd_PayWay data = "alipay" /\
    alipay_PayUrlMobile h orderNo (sprintf_2f amount) (Product.Name product) = inl err) \/
   (pd_PayWay data = "wechat" /\
    wechat_PayUrlH5 h orderNo (int_times100 amount) (Product.Name product)
      (gin.ClientIP c) = inl err) ->
   exists msg, Mobile h c run db = (resp_ERROR (msg ++ err), db)) /\
  snd (PayQrcode h c run db) = insert_order order db /\
  find_order (snd (PayQrcode h c run db)) orderNo
  = Some (Order.with_Id (next_order_id db) order) /\
  Order.Status (Order.with_Id (next_order_id db) order) = OrderNotPaid /\
  (forall file scheme host img,
     fs_Open (PayQrcode_logo (pd_PayType data)) = inr file ->
     url_Parse notifyURL = inr (scheme, host) ->
     GenQrcode (signed scheme host) 400 file = inr img ->
     fst (PayQrcode h c run db)
     = resp_SUCCESS
         (DataH [("order_no", orderNo);
                 ("image", "data:image/jpg;base64, " ++ base64_EncodeToString img);
                 ("url", signed scheme host)])) /\
  ((exists msg, fst (PayQrcode h c run db) = resp_ERROR msg) \/
   (exists file scheme host img,
      fs_Open (PayQrcode_logo (pd_PayType data)) = inr file /\
      url_Parse notifyURL = inr (scheme, host) /\
      GenQrcode (signed scheme host) 400 file = inr img)).
Proof.
  intros Hb Hp Hs Hu Hurl Hfresh Hcreate amount order signed.
  assert (Hqr : PayQrcode h c run db
                = (PayQrcode_url h data orderNo notifyURL (pay_now run),
                   insert_order order db)).
  { unfold PayQrcode. rewrite Hb, Hp, Hs, Hu, Hurl.
    unfold Create_order. now rewrite Hcreate. }
  split; [|rewrite Hqr; simpl; split; [reflexivity|split; [|split; [reflexivity|split]]]].
  - intros Hfail. unfold Mobile. rewrite Hb, Hp, Hs, Hu. unfold Mobile_payURL.
    unfold amount in Hfail.
    destruct Hfail as [(Hway & scheme & host & Hparse & Hpay)|[(Hway & Hpay)|(Hway & Hpay)]];
      rewrite Hway.
    + rewrite String.eqb_refl, Hparse, Hpay.
      now exists "error with generating Pay Hupi URL: ".
    + change ("alipay" =? "hupi")%string with false.
      change ("alipay" =? "geek")%string with false.
      rewrite String.eqb_refl, Hpay.
      now exists "error with generating Alipay URL: ".
    + change ("wechat" =? "hupi")%string with false.
      change ("wechat" =? "geek")%string with false.
      change ("wechat" =? "alipay")%string with false.
      rewrite String.eqb_refl, Hpay.
      now exists "error with generating Wechat URL: ".
  - apply find_order_insert_order; [exact Hfresh|reflexivity].
  - intros file scheme host img Hopen Hparse Hgen.
    unfold PayQrcode_url. rewrite Hopen, Hparse.
    unfold PayQrcode_sign, PayQrcode_signStr.
    fold (signed scheme host). now rewrite Hgen.
  - unfold PayQrcode_url.
    destruct (fs_Open _) as [e|file]; [left; eexists; reflexivity|].
    destruct (url_Parse notifyURL) as [e|[scheme host]]; [left; eexists; reflexivity|].
    unfold PayQrcode_sign, PayQrcode_signStr. fold (signed scheme host).
    destruct (GenQrcode (signed scheme host) 400 file) as [e|img] eqn:Hgen;
      [left; eexists; reflexivity|].
    right. exists file, scheme, host, img. now repeat split.
Qed.

Lemma provider_failure_during_pay_url_witness :
  let data := mkPayData "hupi" "wechat" 1 in
  let c := Fixture.pay_request data in
  let run := Fixture.creating in
  let order :=
    new_order Fixture.alice Fixture.vip_product "2001"
      (DecimalSub (Product.Price Fixture.vip_product)
         (Product.Discount Fixture.vip_product)) data in
  (exists msg, Mobile Fixture.h_down c run Fixture.db0
               = (resp_ERROR (msg ++ "gateway timeout"), Fixture.db0)) /\
  snd (PayQrcode Fixture.h_down c run Fixture.db0) = insert_order order Fixture.db0 /\
  find_order (snd (PayQrcode Fixture.h_down c run Fixture.db0)) "2001"
  = Some (Order.with_Id (next_order_id Fixture.db0) order) /\
  fst (PayQrcode Fixture.h_down c run Fixture.db0)
  = resp_SUCCESS
      (DataH [("order_no", "2001");
              ("image", "data:image/jpg;base64, " ++ "cXI=");
              ("url",
               "https://shop.example.com/api/payment/doPay?order_no=2001"
               ++ "&pay_way=hupi&pay_type=wechat&t=1700000000&sign="
               ++ PayQrcode_sign Fixture.h_down "2001" "hupi" Fixture.now)]).
Proof.
  intros data c run order.
  destruct (provider_failure_during_pay_url Fixture.h_down c run Fixture.db0 data
              Fixture.vip_product "2001" Fixture.notifyURL Fixture.alice
              "gateway timeout" eq_refl eq_refl eq_refl eq_refl eq_refl eq_refl eq_refl)
    as (Hmobile & Hdb & Hfind & _ & Hok & _).
  split; [|split; [exact Hdb|split; [exact Hfind|]]].
  - apply Hmobile. left. split; [reflexivity|].
    exists "https", "shop.example.com". split; reflexivity.
  - rewrite (Hok "res/img/wechat-pay.jpg" "https" "shop.example.com" "qr"
               eq_refl eq_refl eq_refl).
    vm_compute. reflexivity.
Defined.

(** C7, as stated, fails in [Mobile]: with the provider down the caller
    gets the error, and no row for order 2001 exists afterwards. *)
Lemma mobile_provider_failure_stores_no_order :
  let c := Fixture.pay_request (mkPayData "hupi" "wechat" 1) in
  let run := mkPayRun None (inr "2001") CreateInserted Fixture.now in
  Mobile Fixture.h_down c run Fixture.db0
  = (resp_ERROR "error with generating Pay Hupi URL: gateway timeout", Fixture.db0) /\
  find_order (snd (Mobile Fixture.h_down c run Fixture.db0)) "2001" = None.
Proof. split; reflexivity. Qed.

(** ** Order status *)

Lemma Forall2_map_same {A : Type} (R : A -> A -> Prop) (f : A -> A) (l : list A) :
  (forall x, In x l -> R x (f x)) -> Forall2 R l (map f l).
Proof.
  induction l as [|x l IH]; intros H; simpl; constructor.
  - apply H. now left.
  - apply IH. intros y Hy. apply H. now right.
Qed.

Lemma status_monotone_same_orders (db db' : DB) :
  orders db' = orders db -> status_monotone db db'.
Proof.
  intros E. unfold status_monotone. rewrite E. clear E.
  induction (orders db) as [|o l IH]; [constructor|].
  constructor; [|exact IH]. split; [reflexivity|lia].
Qed.

Lemma order_Id_inj (l : list Order.t) (a b : Order.t) :
  NoDup (map Order.Id l) -> In a l -> In b l -> Order.Id a = Order.Id b -> a = b.
Proof.
  induction l as [|x l IH]; simpl; intros Hnd Ha Hb E; [contradiction|].
  inversion Hnd as [|? ? Hx Hl]; subst.
  destruct Ha as [->|Ha], Hb as [->|Hb]; try reflexivity.
  - exfalso. apply Hx. rewrite E. now apply in_map.
  - exfalso. apply Hx. rewrite <- E. now apply in_map.
  - now apply IH.
Qed.

Lemma status_monotone_paid (run : NotifyRun) (order : Order.t) (tradeNo : string)
  (db db' : DB) :
  orders db' = orders (save_order (paid_order run order tradeNo) db) ->
  status_monotone db db'.
Proof.
  intros E. unfold status_monotone. rewrite E. simpl.
  apply Forall2_map_same. intros o _. simpl.
  destruct (Order.Id o =? Order.Id order) eqn:Hid.
  - split; [simpl; lia|]. simpl. destruct (Order.Status o); simpl; lia.
  - split; [reflexivity|lia].
Qed.

Lemma notify_orders {RT : Runtime} (h : PaymentHandler) (run : NotifyRun)
  (orderNo tradeNo : string) (db : DB) :
  orders (snd (notify h run orderNo tradeNo db)) = orders db \/
  exists order,
    orders (snd (notify h run orderNo tradeNo db))
    = orders (save_order (paid_order run order tradeNo) db).
Proof.
  unfold notify.
  destruct (notify_fetch run orderNo db) as [e|order]; [now left|].
  unfold notify_locked.
  destruct (OrderStatus_eqb (Order.Status order) OrderPaidSuccess); [now left|].
  destruct (First (fault_user run) (find_user db (Order.UserId order)))
    as [e|user]; [now left|].
  destruct (JsonDecode (Order.Remark order)) as [e|remark]; [now left|].
  destruct (credit h run remark user) as [[user' opt] power].
  unfold Updates_user, Updates_order.
  destruct (fault_save_user run); [now left|].
  destruct (fault_save_order run); [now left|].
  right. exists order. simpl.
  destruct (fault_sales run), (power >? 0), (fault_log run); reflexivity.
Qed.

(** Taken as whole calls, one after the other, neither [DoPay] nor
    [notify] moves the status of any order backwards: each row keeps its status or goes from [OrderNotPaid] to
    [OrderScanned] or from either of them to [OrderPaidSuccess].  For an
    order that is already paid, [DoPay] answers with an error and [notify]
    returns [nil]; both leave the store as it was. *)
Theorem order_status_is_monotonic {RT : Runtime} (h : PaymentHandler)
  (c : gin.Context) (drun : DoPayRun) (nrun : NotifyRun)
  (orderNo tradeNo : string) (db : DB) :
  NoDup (map Order.Id (orders db)) ->
  status_monotone db (snd (DoPay h c drun db)) /\
  status_monotone db (snd (notify h nrun orderNo tradeNo db)) /\
  (forall order,
     First (dp_fault_order drun) (find_order db (gin.GetTrim c "order_no")) = inr order ->
     Order.Status order = OrderPaidSuccess ->
     exists msg, DoPay h c drun db = (resp_ERROR msg, db)) /\
  (forall order,
     notify_fetch nrun orderNo db = inr order ->
     Order.Status order = OrderPaidSuccess ->
     notify h nrun orderNo tradeNo db = (None, db)).
Proof.
  intros Hnd. split; [|split; [|split]].
  - unfold DoPay.
    destruct (negb _); [now apply status_monotone_same_orders|].
    destruct (_ >? _); [now apply status_monotone_same_orders|].
    destruct (_ =? _)%string; [now apply status_monotone_same_orders|].
    destruct (First _ _) as [e|order] eqn:Hf; [now apply status_monotone_same_orders|].
    destruct (OrderStatus_eqb _ _) eqn:Hs; [now apply status_monotone_same_orders|].
    simpl. unfold UpdateColumn_status.
    destruct (dp_fault_scan drun); [now apply status_monotone_same_orders|].
    apply First_inr in Hf as [_ Hf]. apply find_order_In in Hf.
    apply OrderStatus_eqb_neq in Hs.
    unfold status_monotone. simpl. apply Forall2_map_same. intros o Ho.
    destruct (Order.Id o =? Order.Id order) eqn:Hid.
    + assert (o = order) by (apply (order_Id_inj (orders db)); auto; lia).
      subst o. split; [reflexivity|].
      simpl. destruct (Order.Status order); simpl; try lia. congruence.
    + split; [reflexivity|lia].
  - destruct (notify_orders h nrun orderNo tradeNo db) as [E|[order E]].
    + now apply status_monotone_same_orders.
    + now apply (status_monotone_paid nrun order tradeNo).
  - intros order Hf Hs. unfold DoPay.
    destruct (negb _); [eexists; reflexivity|].
    destruct (_ >? _); [eexists; reflexivity|].
    destruct (_ =? _)%string; [eexists; reflexivity|].
    rewrite Hf, Hs. simpl. eexists; reflexivity.
  - intros order Hf Hs. unfold notify, notify_locked. now rewrite Hf, Hs.
Qed.

Lemma order_status_is_monotonic_witness :
  let c := Fixture.scan1004 in
  let drun := Fixture.in_time in
  status_monotone Fixture.db0 (snd (DoPay Fixture.h_up c drun Fixture.db0)) /\
  status_monotone Fixture.db0
    (snd (notify Fixture.h_up Fixture.calm "1004" "T0" Fixture.db0)) /\
  (forall order,
     First (dp_fault_order drun) (find_order Fixture.db0 (gin.GetTrim c "order_no"))
     = inr order ->
     Order.Status order = OrderPaidSuccess ->
     exists msg, DoPay Fixture.h_up c drun Fixture.db0 = (resp_ERROR msg, Fixture.db0)) /\
  (forall order,
     notify_fetch Fixture.calm "1004" Fixture.db0 = inr order ->
     Order.Status order = OrderPaidSuccess ->
     notify Fixture.h_up Fixture.calm "1004" "T0" Fixture.db0 = (None, Fixture.db0)).
Proof.
  intros c drun.
  apply (order_status_is_monotonic Fixture.h_up c drun Fixture.calm "1004" "T0"
           Fixture.db0).
  simpl. repeat constructor; simpl; intros H;
    repeat (destruct H as [H|H]; try discriminate H); exact H.
Defined.

(** The two handlers that create orders leave the stored rows alone: they
    add at most one row, in status [OrderNotPaid]. *)
Lemma creation_keeps_orders {RT : Runtime} (h : PaymentHandler) (c : gin.Context)
  (run : PayRun) (db : DB) :
  (exists extra,
     orders (snd (PayQrcode h c run db)) = (orders db ++ extra)%list /\
     Forall (fun o => Order.Status o = OrderNotPaid) extra) /\
  (exists extra,
     orders (snd (Mobile h c run db)) = (orders db ++ extra)%list /\
     Forall (fun o => Order.Status o = OrderNotPaid) extra).
Proof.
  assert (Hsame : exists extra,
             orders db = (orders db ++ extra)%list /\
             Forall (fun o => Order.Status o = OrderNotPaid) extra).
  { exists []. split; [now rewrite app_nil_r|constructor]. }
  assert (Hcreate : forall order (k : Response),
             Order.Status order = OrderNotPaid ->
             exists extra,
               orders (snd (match Create_order (pay_create run) order db with
                            | (Some r, db) => (r, db)
                            | (None, db) => (k, db)
                            end))
               = (orders db ++ extra)%list /\
               Forall (fun o => Order.Status o = OrderNotPaid) extra).
  { intros order k Hs. unfold Create_order.
    destruct (pay_create run); simpl; try exact Hsame.
    eexists. split; [reflexivity|]. now repeat constructor. }
  split.
  - unfold PayQrcode.
    destruct (gin.ShouldBindJSON c) as [?|data]; [exact Hsame|].
    destruct (First _ _) as [?|product]; [exact Hsame|].
    destruct (pay_snowflake run) as [?|orderNo]; [exact Hsame|].
    destruct (gin.GetLoginUser c) as [?|user]; [exact Hsame|].
    destruct (PayQrcode_notifyURL h _) as [url|]; [|exact Hsame].
    now apply Hcreate.
  - unfold Mobile.
    destruct (gin.ShouldBindJSON c) as [?|data]; [exact Hsame|].
    destruct (First _ _) as [?|product]; [exact Hsame|].
    destruct (pay_snowflake run) as [?|orderNo]; [exact Hsame|].
    destruct (gin.GetLoginUser c) as [?|user]; [exact Hsame|].
    destruct (Mobile_payURL h c data product orderNo _) as [?|payURL]; [exact Hsame|].
    now apply Hcreate.
Qed.

Lemma DoPay_in_two_steps {RT : Runtime} (h : PaymentHandler) (c : gin.Context)
  (run : DoPayRun) (db : DB) :
  DoPay h c run db
  = match DoPay_read h c run db with
    | inl r => (r, db)
    | inr order => DoPay_write h c run order db
    end.
Proof.
  unfold DoPay, DoPay_read, DoPay_write.
  destruct (negb _); [reflexivity|].
  destruct (_ >? _); [reflexivity|].
  destruct (_ =? _)%string; [reflexivity|].
  destruct (First _ _) as [e|order]; [reflexivity|].
  now destruct (OrderStatus_eqb _ _).
Qed.

Lemma DoPay_read_inr {RT : Runtime} (h : PaymentHandler) (c : gin.Context)
  (run : DoPayRun) (db : DB) (order : Order.t) :
  DoPay_read h c run db = inr order ->
  find_order db (gin.GetTrim c "order_no") = Some order /\
  Order.Status order <> OrderPaidSuccess.
Proof.
  unfold DoPay_read.
  destruct (negb _); [discriminate|].
  destruct (_ >? _); [discriminate|].
  destruct (_ =? _)%string; [discriminate|].
  destruct (First _ _) as [e|o] eqn:Hf; [discriminate|].
  destruct (OrderStatus_eqb _ _) eqn:Hs; [discriminate|].
  intros [= ->]. split.
  - now apply First_inr in Hf.
  - now apply OrderStatus_eqb_neq.
Qed.

Lemma find_order_status_update_key (db : DB) (orderNo : string)
  (order stored : Order.t) (status : OrderStatus) :
  find_order db orderNo = Some stored ->
  Order.Id stored = Order.Id order ->
  find_order (snd (UpdateColumn_status None order status db)) orderNo
  = Some (Order.with_Status status stored).
Proof.
  unfold find_order. simpl. intros E Hid.
  induction (orders db) as [|r rs IH]; simpl in *; [discriminate|].
  destruct (Order.OrderNo r =? orderNo)%string eqn:Hr.
  - injection E as ->. rewrite Hid, Z.eqb_refl. simpl. now rewrite Hr.
  - destruct (Order.Id r =? Order.Id order); simpl; rewrite Hr; now apply IH.
Qed.

(** C8, on the code.  [DoPay] tests the status on the order it read at
    line 97 and writes [OrderScanned] at line 110 by the order's key
    alone.  When a callback settles the order between the two, the write
    takes the stored order from [OrderPaidSuccess] back to
    [OrderScanned]. *)
Theorem DoPay_write_after_settlement_regresses {RT : Runtime} (h : PaymentHandler)
  (c : gin.Context) (drun : DoPayRun) (nrun : NotifyRun) (tradeNo : string)
  (db db1 : DB) (order : Order.t) :
  DoPay_read h c drun db = inr order ->
  notify h nrun (gin.GetTrim c "order_no") tradeNo db = (None, db1) ->
  dp_fault_scan drun = None ->
  option_map Order.Status (find_order db (gin.GetTrim c "order_no"))
  = Some (Order.Status order) /\
  Order.Status order <> OrderPaidSuccess /\
  option_map Order.Status (find_order db1 (gin.GetTrim c "order_no"))
  = Some OrderPaidSuccess /\
  option_map Order.Status
    (find_order (snd (DoPay_write h c drun order db1)) (gin.GetTrim c "order_no"))
  = Some OrderScanned.
Proof.
  intros Hread Hn Hscan.
  destruct (DoPay_read_inr h c drun db order Hread) as [Hf Hs].
  set (orderNo := gin.GetTrim c "order_no") in *.
  destruct (notify_fetch nrun orderNo db) as [e|order0] eqn:Hfetch;
    [unfold notify in Hn; rewrite Hfetch in Hn; discriminate|].
  pose proof (notify_fetch_inr _ _ _ _ Hfetch) as [_ Hf0].
  assert (order0 = order) by congruence. subst order0.
  destruct (notify_success_inv h nrun orderNo tradeNo db db1 order Hfetch Hs Hn)
    as (user & remark & _ & _ & _ & _ & ->).
  destruct (settled_find_order h nrun order tradeNo user remark db orderNo Hf)
    as (row & _ & Hid & Hfind).
  split; [now rewrite Hf|]. split; [exact Hs|]. split; [now rewrite Hfind|].
  unfold DoPay_write. simpl. rewrite Hscan.
  rewrite (find_order_status_update_key _ orderNo order _ OrderScanned Hfind);
    [reflexivity|exact Hid].
Qed.

Lemma DoPay_write_after_settlement_regresses_witness :
  let db1 := snd (notify Fixture.h_up Fixture.calm "1002" "T2" Fixture.db0) in
  option_map Order.Status (find_order Fixture.db0 (gin.GetTrim Fixture.scan1002 "order_no"))
  = Some (Order.Status Fixture.o1002) /\
  Order.Status Fixture.o1002 <> OrderPaidSuccess /\
  option_map Order.Status (find_order db1 (gin.GetTrim Fixture.scan1002 "order_no"))
  = Some OrderPaidSuccess /\
  option_map Order.Status
    (find_order
       (snd (DoPay_write Fixture.h_up Fixture.scan1002 Fixture.in_time Fixture.o1002 db1))
       (gin.GetTrim Fixture.scan1002 "order_no"))
  = Some OrderScanned.
Proof.
  intros db1.
  apply (DoPay_write_after_settlement_regresses Fixture.h_up Fixture.scan1002
           Fixture.in_time Fixture.calm "T2" Fixture.db0 db1 Fixture.o1002).
  - vm_compute. reflexivity.
  - vm_compute. reflexivity.
  - reflexivity.
Defined.

(** At that input the order, settled once for 100 power, is open again:
    the next callback for it credits the user a second time. *)
Lemma scan_after_settlement_reopens_the_order :
  let db1 := snd (notify Fixture.h_up Fixture.calm "1002" "T2" Fixture.db0) in
  let db2 := snd (DoPay_write Fixture.h_up Fixture.scan1002 Fixture.in_time
                    Fixture.o1002 db1) in
  let db3 := snd (notify Fixture.h_up Fixture.calm "1002" "T2" db2) in
  DoPay_read Fixture.h_up Fixture.scan1002 Fixture.in_time Fixture.db0
  = inr Fixture.o1002 /\
  option_map User.Power (find_user Fixture.db0 1) = Some 10 /\
  option_map User.Power (find_user db1 1) = Some 110 /\
  option_map Order.Status (find_order db2 "1002") = Some OrderScanned /\
  fst (notify Fixture.h_up Fixture.calm "1002" "T2" db2) = None /\
  option_map User.Power (find_user db3 1) = Some 210 /\
  length (power_logs db3) = 2%nat.
Proof. vm_compute. repeat split; reflexivity. Qed.

(** ** The signed pay URL *)

Lemma length_append (a b : string) :
  String.length (a ++ b) = (String.length a + String.length b)%nat.
Proof. induction a as [|x a IH]; simpl; [reflexivity|now rewrite IH]. Qed.

(** [PayQrcode] signs the pay way along with the order number and the
    time; [DoPay] leaves it out, so the two never hash the same string. *)
Lemma signStr_differ (h : PaymentHandler) (orderNo payWay : string) (t : Z) :
  PayQrcode_signStr h orderNo payWay t <> DoPay_signStr h orderNo t.
Proof.
  intros E. apply (f_equal String.length) in E.
  unfold PayQrcode_signStr, DoPay_signStr in E.
  rewrite !length_append in E. simpl in E. lia.
Qed.

(** C4, on the code.  A pay URL carries the signature that [PayQrcode]
    computed at line 275; [DoPay] recomputes it at line 78 from another
    string.  Whenever the digests of the two strings differ, [DoPay]
    turns the URL down with the signature error, however fresh it is. *)
Theorem DoPay_rejects_PayQrcode_sign {RT : Runtime} (h : PaymentHandler)
  (c : gin.Context) (run : DoPayRun) (db : DB) (orderNo payWay : string)
  (timestamp : Z) :
  gin.GetTrim c "order_no" = orderNo ->
  gin.GetInt c "t" 0 = timestamp ->
  gin.GetTrim c "sign" = PayQrcode_sign h orderNo payWay timestamp ->
  Sha256 (PayQrcode_signStr h orderNo payWay timestamp)
  <> Sha256 (DoPay_signStr h orderNo timestamp) ->
  DoPay h c run db = (resp_ERROR "订单签名错误！", db).
Proof.
  intros Ho Ht Hsign Hne. unfold DoPay. rewrite Ho, Ht, Hsign.
  unfold PayQrcode_sign.
  destruct (Sha256 (DoPay_signStr h orderNo timestamp)
            =? Sha256 (PayQrcode_signStr h orderNo payWay timestamp))%string eqn:E.
  - apply String.eqb_eq in E. congruence.
  - reflexivity.
Qed.

Lemma DoPay_rejects_PayQrcode_sign_witness :
  let sign := PayQrcode_sign Fixture.h_up "1001" "hupi" Fixture.now in
  DoPay Fixture.h_up (Fixture.pay_query "1001" Fixture.now sign)
    (mkDoPayRun (Fixture.now + 1) None None) Fixture.db0
  = (resp_ERROR "订单签名错误！", Fixture.db0).
Proof.
  intros sign.
  apply (DoPay_rejects_PayQrcode_sign Fixture.h_up _ _ Fixture.db0
           "1001" "hupi" Fixture.now); try reflexivity.
  vm_compute. discriminate.
Defined.

(** The expiry check of [DoPay]: past the timeout a request is turned
    down, whatever its signature. *)
Lemma DoPay_rejects_after_timeout {RT : Runtime} (h : PaymentHandler)
  (c : gin.Context) (run : DoPayRun) (db : DB) :
  int_sub (dp_now run) (gin.GetInt c "t" 0) > OrderPayTimeout h ->
  exists msg, DoPay h c run db = (resp_ERROR msg, db).
Proof.
  intros Hlate. unfold DoPay.
  destruct (negb _); [eexists; reflexivity|].
  replace (_ >? _) with true by (symmetry; lia).
  eexists; reflexivity.
Qed.

(** ** Repeated and concurrent callbacks *)



(** A worker that runs alone does what one call of [notify] does. *)
Lemma worker_alone_is_notify {RT : Runtime} (h : PaymentHandler) (run : NotifyRun)
  (orderNo tradeNo : string) (db : DB) :
  exists n,
    exec h (repeat (O, run) n) (mkSystem db false [Called orderNo tradeNo])
    = Some (mkSystem (snd (notify h run orderNo tradeNo db)) false
              [Returned (fst (notify h run orderNo tradeNo db))]).
Proof.
  unfold notify.
  destruct (notify_fetch run orderNo db) as [e|order] eqn:Hf.
  - exists 1%nat. simpl. unfold step. simpl. now rewrite Hf.
  - exists 3%nat. simpl. unfold step. simpl. rewrite Hf. simpl.
    now destruct (notify_locked h run order tradeNo db).
Qed.

Lemma holders_set_worker (ws : list Worker) (i : nat) (w w' : Worker) :
  nth_error ws i = Some w ->
  (length (filter holds_lock (set_worker i w' ws)) + (if holds_lock w then 1 else 0)
   = length (filter holds_lock ws) + (if holds_lock w' then 1 else 0))%nat.
Proof.
  revert i. induction ws as [|x ws IH]; intros [|i] H; simpl in *; try discriminate.
  - injection H as ->. destruct (holds_lock w), (holds_lock w'); simpl; lia.
  - specialize (IH i H). destruct (holds_lock x); simpl; lia.
Qed.

Lemma step_keeps_lock_consistent {RT : Runtime} (h : PaymentHandler) (i : nat)
  (run : NotifyRun) (s s' : System) :
  lock_consistent s -> step h i run s = Some s' -> lock_consistent s'.
Proof.
  unfold lock_consistent, lock_holders, step. intros Hinv Hstep.
  destruct (nth_error (sys_workers s) i) as [w|] eqn:Hw; [|discriminate].
  destruct w as [orderNo tradeNo|order tradeNo|order tradeNo|res]; simpl in Hstep.
  - destruct (notify_fetch run orderNo (sys_db s)) as [e|order];
      injection Hstep as <-; simpl;
      match goal with
      | |- context [set_worker i ?w' _] =>
          pose proof (holders_set_worker _ i _ w' Hw) as Hc
      end; simpl in Hc;
      (destruct Hinv as [[Hl H0]|[Hl H1]]; [left|right]; (split; [exact Hl|lia])).
  - destruct (sys_lock s) eqn:Hl; [discriminate|].
    injection Hstep as <-. simpl.
    pose proof (holders_set_worker _ i _ (Locked order tradeNo) Hw) as Hc.
    simpl in Hc. right. split; [reflexivity|].
    destruct Hinv as [[_ H0]|[H1 _]]; [lia|discriminate].
  - destruct (notify_locked h run order tradeNo (sys_db s)) as [res db'].
    injection Hstep as <-. simpl.
    pose proof (holders_set_worker _ i _ (Returned res) Hw) as Hc.
    simpl in Hc. left. split; [reflexivity|].
    destruct Hinv as [[_ H0]|[_ H1]]; lia.
  - discriminate.
Qed.

Lemma exec_keeps_lock_consistent {RT : Runtime} (h : PaymentHandler)
  (schedule : list (nat * NotifyRun)) (s s' : System) :
  lock_consistent s -> exec h schedule s = Some s' -> lock_consistent s'.
Proof.
  revert s. induction schedule as [|[i run] rest IH]; intros s Hinv Hexec; simpl in Hexec.
  - now injection Hexec as <-.
  - destruct (step h i run s) as [s1|] eqn:Hstep; [|discriminate].
    apply (IH s1); [|exact Hexec].
    now apply (step_keeps_lock_consistent h i run s).
Qed.





(** * Further properties of the handlers *)

(** ** [DoPay] *)

Lemma find_order_status_update (db : DB) (orderNo : string) (order : Order.t)
  (status : OrderStatus) :
  find_order db orderNo = Some order ->
  find_order (snd (UpdateColumn_status None order status db)) orderNo
  = Some (Order.with_Status status order).
Proof.
  unfold find_order. simpl.
  induction (orders db) as [|r rs IH]; simpl; [discriminate|].
  destruct (Order.OrderNo r =? orderNo)%string eqn:Hr.
  - intros [= ->]. rewrite Z.eqb_refl. simpl. now rewrite Hr.
  - intros E. destruct (Order.Id r =? Order.Id order); simpl; rewrite Hr; now apply IH.
Qed.

Lemma DoPay_accepted {RT : Runtime} (h : PaymentHandler) (c : gin.Context)
  (run : DoPayRun) (db : DB) (order : Order.t) :
  DoPay_accepts h c run db order ->
  DoPay h c run db
  = (DoPay_provider h c (gin.GetTrim c "order_no") order,
     snd (UpdateColumn_status (dp_fault_scan run) order OrderScanned db)).
Proof.
  intros (Hsign & Htime & Hno & Hf & Hs). unfold DoPay.
  rewrite Hsign, String.eqb_refl. simpl.
  replace (_ >? _) with false by (symmetry; lia).
  apply String.eqb_neq in Hno. rewrite Hno, Hf.
  apply OrderStatus_eqb_neq in Hs. now rewrite Hs.
Qed.

(** X1. [DoPay] writes nothing but the status column of orders: users,
    products and audit rows stay as they are, and every order row is kept
    or differs from the stored one in its status alone, now
    [OrderScanned]. *)
Theorem DoPay_writes_only_status {RT : Runtime} (h : PaymentHandler)
  (c : gin.Context) (run : DoPayRun) (db : DB) :
  let db' := snd (DoPay h c run db) in
  users db' = users db /\
  products db' = products db /\
  power_logs db' = power_logs db /\
  Forall2 (fun o o' => o' = o \/ o' = Order.with_Status OrderScanned o)
          (orders db) (orders db').
Proof.
  assert (Hsame : users db = users db /\ products db = products db /\
                  power_logs db = power_logs db /\
                  Forall2 (fun o o' => o' = o \/ o' = Order.with_Status OrderScanned o)
                          (orders db) (orders db)).
  { repeat split. induction (orders db); constructor; auto. }
  unfold DoPay.
  destruct (negb _); [exact Hsame|].
  destruct (_ >? _); [exact Hsame|].
  destruct (_ =? _)%string; [exact Hsame|].
  destruct (First _ _) as [e|order]; [exact Hsame|].
  destruct (OrderStatus_eqb _ _); [exact Hsame|].
  simpl. unfold UpdateColumn_status.
  destruct (dp_fault_scan run); [exact Hsame|].
  simpl. repeat split.
  apply Forall2_map_same. intros o _.
  destruct (Order.Id o =? Order.Id order); auto.
Qed.

(** X2. A request that passes the guards of [DoPay] gets the outcome of
    the provider call, and, when the status update does not fail, the
    order is stored as [OrderScanned] with every other field unchanged.
    The request is still accepted when its age equals the timeout. *)
Theorem DoPay_marks_order_scanned {RT : Runtime} (h : PaymentHandler)
  (c : gin.Context) (run : DoPayRun) (db : DB) (order : Order.t) :
  DoPay_accepts h c run db order ->
  dp_fault_scan run = None ->
  fst (DoPay h c run db) = DoPay_provider h c (gin.GetTrim c "order_no") order /\
  find_order (snd (DoPay h c run db)) (gin.GetTrim c "order_no")
  = Some (Order.with_Status OrderScanned order).
Proof.
  intros Ha Hscan. rewrite (DoPay_accepted h c run db order Ha). simpl.
  split; [reflexivity|].
  destruct Ha as (_ & _ & _ & Hf & _). apply First_inr in Hf as [_ Hf].
  rewrite Hscan. now apply find_order_status_update.
Qed.

(** X3. [DoPay] changes the store only for a request that passed every
    guard and whose status update went through. *)
Theorem DoPay_changes_store_only_when_accepted {RT : Runtime} (h : PaymentHandler)
  (c : gin.Context) (run : DoPayRun) (db : DB) :
  snd (DoPay h c run db) <> db ->
  exists order, DoPay_accepts h c run db order /\ dp_fault_scan run = None.
Proof.
  unfold DoPay, DoPay_accepts.
  destruct (Sha256 _ =? gin.GetTrim c "sign")%string eqn:Hsign; simpl;
    [|intros H; now contradiction H].
  destruct (_ >? _) eqn:Htime; [intros H; now contradiction H|].
  destruct (gin.GetTrim c "order_no" =? "")%string eqn:Hno;
    [intros H; now contradiction H|].
  destruct (First _ _) as [e|order]; [intros H; now contradiction H|].
  destruct (OrderStatus_eqb _ _) eqn:Hs; [intros H; now contradiction H|].
  simpl. unfold UpdateColumn_status.
  destruct (dp_fault_scan run); [intros H; now contradiction H|].
  intros _. exists order. repeat split.
  - now apply String.eqb_eq.
  - lia.
  - now apply String.eqb_neq.
  - now apply OrderStatus_eqb_neq.
Qed.

Lemma Fixture_DoPay_accepts (h : PaymentHandler) :
  signKey h = signKey Fixture.h_up -> OrderPayTimeout h = 600 ->
  DoPay_accepts h Fixture.scan1001 Fixture.in_time Fixture.db0 Fixture.o1001.
Proof.
  intros Hkey Htime. unfold DoPay_accepts, DoPay_signStr. rewrite Hkey, Htime.
  split; [vm_compute; reflexivity|].
  split; [vm_compute; discriminate|].
  split; [simpl; discriminate|].
  split; [reflexivity|simpl; discriminate].
Defined.

Lemma DoPay_marks_order_scanned_witness :
  fst (DoPay Fixture.h_up Fixture.scan1001 Fixture.in_time Fixture.db0)
  = DoPay_provider Fixture.h_up Fixture.scan1001
      (gin.GetTrim Fixture.scan1001 "order_no") Fixture.o1001 /\
  find_order (snd (DoPay Fixture.h_up Fixture.scan1001 Fixture.in_time Fixture.db0))
    (gin.GetTrim Fixture.scan1001 "order_no")
  = Some (Order.with_Status OrderScanned Fixture.o1001).
Proof.
  apply (DoPay_marks_order_scanned Fixture.h_up Fixture.scan1001 Fixture.in_time
           Fixture.db0 Fixture.o1001).
  - apply Fixture_DoPay_accepts; reflexivity.
  - reflexivity.
Defined.

Lemma DoPay_changes_store_only_when_accepted_witness :
  exists order,
    DoPay_accepts Fixture.h_up Fixture.scan1001 Fixture.in_time Fixture.db0 order /\
    dp_fault_scan Fixture.in_time = None.
Proof.
  apply (DoPay_changes_store_only_when_accepted Fixture.h_up Fixture.scan1001
           Fixture.in_time Fixture.db0).
  intros E. vm_compute in E. discriminate E.
Defined.

(** X4. When the provider call of an accepted [DoPay] request fails, the
    caller gets the provider's error, and the order stays stored, already
    marked [OrderScanned]. *)
Theorem DoPay_provider_failure_leaves_order_scanned {RT : Runtime}
  (h : PaymentHandler) (c : gin.Context) (run : DoPayRun) (db : DB)
  (order : Order.t) (err : error) :
  DoPay_accepts h c run db order ->
  dp_fault_scan run = None ->
  In (Order.PayWay order) ["alipay"; "hupi"; "wechat"; "geek"] ->
  (forall no amount subject, alipay_PayUrlMobile h no amount subject = inl err) ->
  (forall req, huPi_Pay h req = inl err) ->
  (forall no amount subject, wechat_PayUrlNative h no amount subject = inl err) ->
  (forall params, geek_Pay h params = inl err) ->
  (exists msg, fst (DoPay h c run db) = resp_ERROR (msg ++ err)) /\
  find_order (snd (DoPay h c run db)) (gin.GetTrim c "order_no")
  = Some (Order.with_Status OrderScanned order).
Proof.
  intros Ha Hscan Hway Hali Hhupi Hwx Hgeek.
  destruct (DoPay_marks_order_scanned h c run db order Ha Hscan) as [Hr Ho].
  split; [|exact Ho]. rewrite Hr. unfold DoPay_provider.
  destruct Hway as [E|[E|[E|[E|[]]]]]; rewrite <- E; simpl.
  - rewrite Hali. now exists "error with generate pay url: ".
  - rewrite Hhupi. now exists "".
  - rewrite Hwx. now exists "".
  - rewrite Hgeek. now exists "".
Qed.

Lemma DoPay_provider_failure_leaves_order_scanned_witness :
  (exists msg, fst (DoPay Fixture.h_down Fixture.scan1001 Fixture.in_time Fixture.db0)
               = resp_ERROR (msg ++ "gateway timeout")) /\
  find_order (snd (DoPay Fixture.h_down Fixture.scan1001 Fixture.in_time Fixture.db0))
    (gin.GetTrim Fixture.scan1001 "order_no")
  = Some (Order.with_Status OrderScanned Fixture.o1001).
Proof.
  apply (DoPay_provider_failure_leaves_order_scanned Fixture.h_down Fixture.scan1001
           Fixture.in_time Fixture.db0 Fixture.o1001 "gateway timeout").
  - apply Fixture_DoPay_accepts; reflexivity.
  - reflexivity.
  - simpl. auto.
  - reflexivity.
  - reflexivity.
  - reflexivity.
  - reflexivity.
Defined.

(** X5. For an order whose pay way is none of the four the handler knows,
    an accepted [DoPay] request marks the order [OrderScanned] and writes
    no response at all. *)
Theorem DoPay_unknown_pay_way_writes_nothing {RT : Runtime}
  (h : PaymentHandler) (c : gin.Context) (run : DoPayRun) (db : DB)
  (order : Order.t) :
  DoPay_accepts h c run db order ->
  dp_fault_scan run = None ->
  ~ In (Order.PayWay order) ["alipay"; "hupi"; "wechat"; "geek"] ->
  fst (DoPay h c run db) = NoResponse /\
  find_order (snd (DoPay h c run db)) (gin.GetTrim c "order_no")
  = Some (Order.with_Status OrderScanned order).
Proof.
  intros Ha Hscan Hway.
  destruct (DoPay_marks_order_scanned h c run db order Ha Hscan) as [Hr Ho].
  split; [|exact Ho]. rewrite Hr. unfold DoPay_provider.
  repeat match goal with
  | |- context [(Order.PayWay order =? ?s)%string] =>
      destruct (String.eqb_spec (Order.PayWay order) s) as [E|_];
      [exfalso; apply Hway; rewrite E; simpl; auto|]
  end.
  reflexivity.
Qed.

Lemma DoPay_unknown_pay_way_writes_nothing_witness :
  fst (DoPay Fixture.h_up Fixture.scan1005 Fixture.in_time Fixture.db_cash) = NoResponse /\
  find_order (snd (DoPay Fixture.h_up Fixture.scan1005 Fixture.in_time Fixture.db_cash))
    (gin.GetTrim Fixture.scan1005 "order_no")
  = Some (Order.with_Status OrderScanned Fixture.o1005).
Proof.
  apply (DoPay_unknown_pay_way_writes_nothing Fixture.h_up Fixture.scan1005
           Fixture.in_time Fixture.db_cash Fixture.o1005).
  - unfold DoPay_accepts.
    split; [vm_compute; reflexivity|].
    split; [vm_compute; discriminate|].
    split; [simpl; discriminate|].
    split; [reflexivity|simpl; discriminate].
  - reflexivity.
  - simpl. intros H.
    repeat (destruct H as [H|H]; [discriminate H|]). exact H.
Defined.

(** ** [DoPay] and [notify] together *)

Lemma notify_nil_order_paid {RT : Runtime} (h : PaymentHandler) (run : NotifyRun)
  (orderNo tradeNo : string) (db db1 : DB) :
  notify h run orderNo tradeNo db = (None, db1) ->
  exists order, find_order db1 orderNo = Some order /\
                Order.Status order = OrderPaidSuccess.
Proof.
  intros Hn.
  destruct (notify_fetch run orderNo db) as [e|order] eqn:Hf.
  - unfold notify in Hn. rewrite Hf in Hn. discriminate.
  - destruct (OrderStatus_eqb (Order.Status order) OrderPaidSuccess) eqn:Hs.
    + apply OrderStatus_eqb_eq in Hs.
      unfold notify, notify_locked in Hn. rewrite Hf in Hn.
      replace (OrderStatus_eqb (Order.Status order) OrderPaidSuccess) with true in Hn
        by (symmetry; now apply OrderStatus_eqb_eq).
      injection Hn as <-. exists order. split; [|exact Hs].
      now apply notify_fetch_inr in Hf.
    + apply OrderStatus_eqb_neq in Hs.
      destruct (notify_success_inv h run orderNo tradeNo db db1 order Hf Hs Hn)
        as (user & remark & _ & _ & _ & _ & ->).
      apply notify_fetch_inr in Hf as [_ Hf].
      destruct (settled_find_order h run order tradeNo user remark db orderNo Hf)
        as (row & _ & _ & Hfind).
      exists (updated_order (paid_order run order tradeNo) row).
      split; [exact Hfind|reflexivity].
Qed.

(** X6. Once [notify] has returned [nil] for an order, every later
    [DoPay] request for that order is answered with an error and leaves
    the store as it is: a settled order is never marked scanned again. *)
Theorem DoPay_after_settlement_is_refused {RT : Runtime} (h : PaymentHandler)
  (c : gin.Context) (drun : DoPayRun) (nrun : NotifyRun)
  (orderNo tradeNo : string) (db db1 : DB) :
  notify h nrun orderNo tradeNo db = (None, db1) ->
  gin.GetTrim c "order_no" = orderNo ->
  exists msg, DoPay h c drun db1 = (resp_ERROR msg, db1).
Proof.
  intros Hn Hno.
  destruct (notify_nil_order_paid h nrun orderNo tradeNo db db1 Hn)
    as (order & Hf & Hs).
  unfold DoPay. rewrite Hno.
  destruct (negb _); [eexists; reflexivity|].
  destruct (_ >? _); [eexists; reflexivity|].
  destruct (_ =? _)%string; [eexists; reflexivity|].
  rewrite Hf. unfold First.
  destruct (dp_fault_order drun); [eexists; reflexivity|].
  rewrite Hs. simpl. eexists; reflexivity.
Qed.

Lemma DoPay_after_settlement_is_refused_witness :
  exists msg,
    DoPay Fixture.h_up Fixture.scan1001 Fixture.in_time
      (snd (notify Fixture.h_up Fixture.calm "1001" "T1" Fixture.db0))
    = (resp_ERROR msg, snd (notify Fixture.h_up Fixture.calm "1001" "T1" Fixture.db0)).
Proof.
  apply (DoPay_after_settlement_is_refused Fixture.h_up Fixture.scan1001
           Fixture.in_time Fixture.calm "1001" "T1" Fixture.db0).
  - vm_compute. reflexivity.
  - reflexivity.
Defined.

(** X7. Scanning does not change what settlement does: when [notify]
    settles an order on a store, it settles it to the very same store and
    with the same result after an accepted [DoPay] request has marked the
    order [OrderScanned]. *)
Theorem settlement_is_the_same_after_scan {RT : Runtime} (h : PaymentHandler)
  (c : gin.Context) (drun : DoPayRun) (nrun : NotifyRun)
  (tradeNo : string) (db db2 : DB) (order : Order.t) :
  DoPay_accepts h c drun db order ->
  notify h nrun (gin.GetTrim c "order_no") tradeNo db = (None, db2) ->
  notify h nrun (gin.GetTrim c "order_no") tradeNo (snd (DoPay h c drun db))
  = (None, db2).
Proof.
  intros Ha Hn. rewrite (DoPay_accepted h c drun db order Ha). simpl.
  destruct Ha as (_ & _ & _ & Hf & Hs). apply First_inr in Hf as [_ Hf].
  set (orderNo := gin.GetTrim c "order_no") in *.
  unfold UpdateColumn_status. destruct (dp_fault_scan drun); [exact Hn|]. simpl.
  destruct (notify_fetch nrun orderNo db) as [e|order0] eqn:Hfetch;
    [unfold notify in Hn; rewrite Hfetch in Hn; discriminate|].
  pose proof (notify_fetch_inr _ _ _ _ Hfetch) as [Hfo Hf0].
  assert (order0 = order) by congruence. subst order0.
  destruct (notify_success_inv h nrun orderNo tradeNo db db2 order Hfetch Hs Hn)
    as (user & remark & Hu & Hd & Hsu & Hso & ->).
  set (db1 := mkDB _ _ _ _).
  assert (Hdb1 : db1 = snd (UpdateColumn_status None order OrderScanned db))
    by reflexivity.
  rewrite (notify_success h nrun orderNo tradeNo db1
             (Order.with_Status OrderScanned order) user remark).
  - f_equal. unfold settled_db.
    destruct (credit h nrun remark user) as [[user' opt] power].
    change (paid_order nrun (Order.with_Status OrderScanned order) tradeNo)
      with (paid_order nrun order tradeNo).
    replace (save_order (paid_order nrun order tradeNo) (save_user user' db1))
      with (save_order (paid_order nrun order tradeNo) (save_user user' db));
      [reflexivity|].
    unfold save_order, save_user, db1. simpl. f_equal.
    rewrite map_map. apply map_ext. intros r.
    destruct (Order.Id r =? Order.Id order) eqn:Hr; simpl; now rewrite Hr.
  - unfold notify_fetch. rewrite Hfo. rewrite Hdb1.
    unfold First.
    now rewrite (find_order_status_update db orderNo order OrderScanned Hf).
  - simpl. discriminate.
  - exact Hu.
  - exact Hd.
  - exact Hsu.
  - exact Hso.
Qed.

Lemma settlement_is_the_same_after_scan_witness :
  notify Fixture.h_up Fixture.calm (gin.GetTrim Fixture.scan1001 "order_no") "T1"
    (snd (DoPay Fixture.h_up Fixture.scan1001 Fixture.in_time Fixture.db0))
  = (None, snd (notify Fixture.h_up Fixture.calm "1001" "T1" Fixture.db0)).
Proof.
  apply (settlement_is_the_same_after_scan Fixture.h_up Fixture.scan1001
           Fixture.in_time Fixture.calm "T1" Fixture.db0 _ Fixture.o1001).
  - apply Fixture_DoPay_accepts; reflexivity.
  - vm_compute. reflexivity.
Defined.

(** X8. A second [DoPay] request for an order that an accepted request has
    already marked [OrderScanned] leaves the store as the first one left
    it, whatever it answers. *)
Theorem DoPay_again_keeps_store {RT : Runtime} (h : PaymentHandler)
  (c : gin.Context) (run run' : DoPayRun) (db : DB) (order : Order.t) :
  DoPay_accepts h c run db order ->
  dp_fault_scan run = None ->
  snd (DoPay h c run' (snd (DoPay h c run db))) = snd (DoPay h c run db).
Proof.
  intros Ha Hscan.
  destruct (DoPay_marks_order_scanned h c run db order Ha Hscan) as [_ Ho].
  rewrite (DoPay_accepted h c run db order Ha) in *. simpl in *.
  rewrite Hscan in *. set (db1 := snd (UpdateColumn_status None order OrderScanned db)) in *.
  unfold DoPay.
  destruct (negb _); [reflexivity|].
  destruct (_ >? _); [reflexivity|].
  destruct (_ =? _)%string; [reflexivity|].
  rewrite Ho. unfold First.
  destruct (dp_fault_order run'); [reflexivity|].
  simpl. unfold UpdateColumn_status.
  destruct (dp_fault_scan run'); [reflexivity|].
  unfold db1. simpl. f_equal.
  rewrite map_map. apply map_ext. intros r.
  destruct (Order.Id r =? Order.Id order) eqn:Hr; simpl; rewrite Hr; [|reflexivity].
  reflexivity.
Qed.

Lemma DoPay_again_keeps_store_witness :
  snd (DoPay Fixture.h_up Fixture.scan1001 Fixture.in_time
         (snd (DoPay Fixture.h_up Fixture.scan1001 Fixture.in_time Fixture.db0)))
  = snd (DoPay Fixture.h_up Fixture.scan1001 Fixture.in_time Fixture.db0).
Proof.
  apply (DoPay_again_keeps_store Fixture.h_up Fixture.scan1001 Fixture.in_time
           Fixture.in_time Fixture.db0 Fixture.o1001).
  - apply Fixture_DoPay_accepts; reflexivity.
  - reflexivity.
Defined.

(** ** [PayQrcode] and [Mobile] *)

Section PayRequest.
Context {RT : Runtime}.
Variable h : PaymentHandler.
Variables (c : gin.Context) (run : PayRun) (db : DB).
Variables (data : PayData) (product : Product.t) (orderNo : string) (user : User.t).

(** The request got past lines 174-195 (294-315 in [Mobile]). *)
Hypothesis Hbind : gin.ShouldBindJSON c = inr data.
Hypothesis Hproduct :
  First (pay_fault_product run) (find_product db (pd_ProductId data)) = inr product.
Hypothesis Hsnowflake : pay_snowflake run = inr orderNo.
Hypothesis Huser : gin.GetLoginUser c = inr user.

Let amount : float64 := DecimalSub (Product.Price product) (Product.Discount product).
Let order : Order.t := new_order user product orderNo amount data.

Lemma PayQrcode_past_checks :
  PayQrcode h c run db
  = match PayQrcode_notifyURL h (pd_PayWay data) with
    | None => (resp_ERROR "Invalid pay way", db)
    | Some notifyURL =>
        match Create_order (pay_create run) order db with
        | (Some r, db) => (r, db)
        | (None, db) => (PayQrcode_url h data orderNo notifyURL (pay_now run), db)
        end
    end.
Proof. unfold PayQrcode. now rewrite Hbind, Hproduct, Hsnowflake, Huser. Qed.

Lemma Mobile_past_checks :
  Mobile h c run db
  = match Mobile_payURL h c data product orderNo amount with
    | inl r => (r, db)
    | inr payURL =>
        match Create_order (pay_create run) order db with
        | (Some r, db) => (r, db)
        | (None, db) =>
            (resp_SUCCESS (DataH [("url", payURL); ("order_no", orderNo)]), db)
        end
    end.
Proof. unfold Mobile. now rewrite Hbind, Hproduct, Hsnowflake, Huser. Qed.

Lemma unknown_pay_way_eqb (s : string) :
  ~ In (pd_PayWay data) ["hupi"; "geek"; "alipay"; "wechat"] ->
  In s ["hupi"; "geek"; "alipay"; "wechat"] ->
  (pd_PayWay data =? s)%string = false.
Proof.
  intros Hway Hs. apply String.eqb_neq. intros E. apply Hway. now rewrite E.
Qed.

(** X9. A pay way the handler does not know is turned down before any
    order is stored and before any provider is called: [PayQrcode]
    answers "Invalid pay way", [Mobile] names the pay way, and both leave
    the store as it was. *)
Theorem unknown_pay_way_stores_no_order :
  ~ In (pd_PayWay data) ["hupi"; "geek"; "alipay"; "wechat"] ->
  PayQrcode h c run db = (resp_ERROR "Invalid pay way", db) /\
  Mobile h c run db = (resp_ERROR ("Unsupported pay way: " ++ pd_PayWay data), db).
Proof.
  intros Hway. rewrite PayQrcode_past_checks, Mobile_past_checks.
  unfold PayQrcode_notifyURL, Mobile_payURL.
  rewrite !(unknown_pay_way_eqb _ Hway) by (simpl; auto).
  now split.
Qed.

(** X10. When [h.DB.Create] reports no error and no inserted row, both
    handlers run into the [nil] error of lines 239 and 397: the request
    panics and nothing is stored. *)
Theorem create_without_rows_panics (payURL : string) :
  pay_create run = CreateNoRows ->
  In (pd_PayWay data) ["hupi"; "geek"; "alipay"; "wechat"] ->
  Mobile_payURL h c data product orderNo amount = inr payURL ->
  PayQrcode h c run db = (Panic, db) /\ Mobile h c run db = (Panic, db).
Proof.
  intros Hcreate Hway Hurl. rewrite PayQrcode_past_checks, Mobile_past_checks.
  rewrite Hurl. unfold Create_order. rewrite Hcreate.
  assert (Hn : exists url, PayQrcode_notifyURL h (pd_PayWay data) = Some url).
  { unfold PayQrcode_notifyURL.
    destruct Hway as [E|[E|[E|[E|[]]]]]; rewrite <- E; simpl; eexists; reflexivity. }
  destruct Hn as [url ->]. now split.
Qed.

(** X11. [Mobile] with pay way "geek" calls no provider: it stores the
    order and answers with an empty pay URL. *)
Theorem Mobile_geek_answers_empty_url :
  pd_PayWay data = "geek" ->
  pay_create run = CreateInserted ->
  Mobile h c run db
  = (resp_SUCCESS (DataH [("url", ""); ("order_no", orderNo)]), insert_order order db).
Proof.
  intros Hway Hcreate. rewrite Mobile_past_checks.
  unfold Mobile_payURL. rewrite Hway. simpl.
  unfold Create_order. now rewrite Hcreate.
Qed.

(** X12. [Mobile] with pay way "hupi" ignores the error of parsing the
    configured return URL and then reads the parsed value: with a return
    URL that does not parse the request panics, before the provider is
    called and before an order is stored. *)
Theorem Mobile_hupi_unparsed_return_url_panics (e : error) :
  pd_PayWay data = "hupi" ->
  url_Parse (HuPi_ReturnURL h) = inl e ->
  Mobile h c run db = (Panic, db).
Proof.
  intros Hway Hparse. rewrite Mobile_past_checks.
  unfold Mobile_payURL. rewrite Hway. simpl. now rewrite Hparse.
Qed.

(** X13. Once [PayQrcode] has stored the order, a failure to open the
    logo or to parse the notify URL is reported to the caller while the
    order stays in the store, unpaid. *)
Theorem PayQrcode_keeps_order_when_url_fails (notifyURL : string) (err : error) :
  PayQrcode_notifyURL h (pd_PayWay data) = Some notifyURL ->
  pay_create run = CreateInserted ->
  find_order db orderNo = None ->
  fs_Open (PayQrcode_logo (pd_PayType data)) = inl err \/
  (exists file, fs_Open (PayQrcode_logo (pd_PayType data)) = inr file /\
                url_Parse notifyURL = inl err) ->
  (exists msg, fst (PayQrcode h c run db) = resp_ERROR (msg ++ err)) /\
  find_order (snd (PayQrcode h c run db)) orderNo
  = Some (Order.with_Id (next_order_id db) order) /\
  Order.Status (Order.with_Id (next_order_id db) order) = OrderNotPaid.
Proof.
  intros Hurl Hcreate Hfresh Hfail. rewrite PayQrcode_past_checks, Hurl.
  unfold Create_order. rewrite Hcreate. simpl.
  split; [|split; [now apply find_order_insert_order|reflexivity]].
  unfold PayQrcode_url.
  destruct Hfail as [Hopen|(file & Hopen & Hparse)]; rewrite Hopen.
  - now exists "error with open qrcode log file: ".
  - rewrite Hparse. now exists "".
Qed.

End PayRequest.

Lemma unknown_pay_way_stores_no_order_witness :
  let c := Fixture.pay_request (mkPayData "cash" "wechat" 1) in
  PayQrcode Fixture.h_up c Fixture.creating Fixture.db0
  = (resp_ERROR "Invalid pay way", Fixture.db0) /\
  Mobile Fixture.h_up c Fixture.creating Fixture.db0
  = (resp_ERROR ("Unsupported pay way: " ++ "cash"), Fixture.db0).
Proof.
  intros c.
  apply (unknown_pay_way_stores_no_order Fixture.h_up c Fixture.creating Fixture.db0
           (mkPayData "cash" "wechat" 1) Fixture.vip_product "2001" Fixture.alice);
    try reflexivity.
  simpl. intros H. repeat (destruct H as [H|H]; [discriminate H|]). exact H.
Defined.

Lemma create_without_rows_panics_witness :
  let c := Fixture.pay_request (mkPayData "geek" "wechat" 1) in
  let run := mkPayRun None (inr "2001") CreateNoRows Fixture.now in
  PayQrcode Fixture.h_up c run Fixture.db0 = (Panic, Fixture.db0) /\
  Mobile Fixture.h_up c run Fixture.db0 = (Panic, Fixture.db0).
Proof.
  intros c run.
  apply (create_without_rows_panics Fixture.h_up c run Fixture.db0
           (mkPayData "geek" "wechat" 1) Fixture.vip_product "2001" Fixture.alice
           eq_refl eq_refl eq_refl eq_refl "");
    try reflexivity.
  simpl. auto.
Defined.

Lemma Mobile_geek_answers_empty_url_witness :
  let data := mkPayData "geek" "wechat" 1 in
  let c := Fixture.pay_request data in
  Mobile Fixture.h_down c Fixture.creating Fixture.db0
  = (resp_SUCCESS (DataH [("url", ""); ("order_no", "2001")]),
     insert_order
       (new_order Fixture.alice Fixture.vip_product "2001"
          (DecimalSub (Product.Price Fixture.vip_product)
             (Product.Discount Fixture.vip_product)) data)
       Fixture.db0).
Proof.
  intros data c.
  apply (Mobile_geek_answers_empty_url Fixture.h_down c Fixture.creating Fixture.db0
           data Fixture.vip_product "2001" Fixture.alice);
    reflexivity.
Defined.

Lemma Mobile_hupi_unparsed_return_url_panics_witness :
  Mobile Fixture.h_bad_url (Fixture.pay_request (mkPayData "hupi" "wechat" 1))
    Fixture.creating Fixture.db0
  = (Panic, Fixture.db0).
Proof.
  apply (Mobile_hupi_unparsed_return_url_panics Fixture.h_bad_url
           (Fixture.pay_request (mkPayData "hupi" "wechat" 1)) Fixture.creating
           Fixture.db0 (mkPayData "hupi" "wechat" 1) Fixture.vip_product "2001"
           Fixture.alice eq_refl eq_refl eq_refl eq_refl "invalid URI");
    reflexivity.
Defined.

Lemma PayQrcode_keeps_order_when_url_fails_witness :
  let data := mkPayData "hupi" "wechat" 1 in
  let c := Fixture.pay_request data in
  let order :=
    new_order Fixture.alice Fixture.vip_product "2001"
      (DecimalSub (Product.Price Fixture.vip_product)
         (Product.Discount Fixture.vip_product)) data in
  (exists msg, fst (PayQrcode Fixture.h_bad_url c Fixture.creating Fixture.db0)
               = resp_ERROR (msg ++ "invalid URI")) /\
  find_order (snd (PayQrcode Fixture.h_bad_url c Fixture.creating Fixture.db0)) "2001"
  = Some (Order.with_Id (next_order_id Fixture.db0) order) /\
  Order.Status (Order.with_Id (next_order_id Fixture.db0) order) = OrderNotPaid.
Proof.
  intros data c order.
  apply (PayQrcode_keeps_order_when_url_fails Fixture.h_bad_url c Fixture.creating
           Fixture.db0 data Fixture.vip_product "2001" Fixture.alice
           eq_refl eq_refl eq_refl eq_refl "::hupi" "invalid URI");
    try reflexivity.
  right. exists "res/img/wechat-pay.jpg". split; reflexivity.
Defined.

Lemma next_order_id_fresh (db : DB) (r : Order.t) :
  In r (orders db) -> Order.Id r < next_order_id db.
Proof.
  unfold next_order_id. induction (orders db) as [|x l IH]; simpl; [contradiction|].
  intros [->|Hin]; [lia|]. specialize (IH Hin). lia.
Qed.

Lemma assign_Z_same (x : Z) : assign_Z x x = x.
Proof. unfold assign_Z. now destruct (x =? 0). Qed.

Lemma assign_string_same (x : string) : assign_string x x = x.
Proof. unfold assign_string. now destruct (x =? "")%string. Qed.

Lemma assign_float64_same (x : float64) : assign_float64 x x = x.
Proof. destruct x as [bits]. simpl. now destruct (bits =? 0). Qed.

(** X14. An order stored by [PayQrcode] is settled by [notify] with the
    benefit the product had when the order was created, provided the
    remark survives its JSON round trip: the user row is updated from the
    credit that lines 438-455 compute from the product's days and power,
    and the order is stored as paid, with the trade number of the
    callback. *)
Theorem PayQrcode_order_settles_with_product_benefit {RT : Runtime}
  (h : PaymentHandler) (c : gin.Context) (prun : PayRun) (nrun : NotifyRun)
  (db : DB) (data : PayData) (product : Product.t) (orderNo tradeNo notifyURL : string)
  (user stored : User.t) :
  gin.ShouldBindJSON c = inr data ->
  First (pay_fault_product prun) (find_product db (pd_ProductId data)) = inr product ->
  pay_snowflake prun = inr orderNo ->
  gin.GetLoginUser c = inr user ->
  PayQrcode_notifyURL h (pd_PayWay data) = Some notifyURL ->
  pay_create prun = CreateInserted ->
  find_order db orderNo = None ->
  JsonDecode (JsonEncode (remark_of product)) = inr (remark_of product) ->
  find_user db (User.Id user) = Some stored ->
  fault_order nrun = None -> fault_user nrun = None ->
  fault_save_user nrun = None -> fault_save_order nrun = None ->
  let db1 := snd (PayQrcode h c prun db) in
  let db2 := snd (notify h nrun orderNo tradeNo db1) in
  let credited := fst (fst (credit h nrun (remark_of product) stored)) in
  fst (notify h nrun orderNo tradeNo db1) = None /\
  find_user db2 (User.Id user) = Some (updated_user credited stored) /\
  ((User.Power credited = 0 -> User.Power stored = 0) ->
   (User.ExpiredTime credited = 0 -> User.ExpiredTime stored = 0) ->
   find_user db2 (User.Id user) = Some credited) /\
  exists order,
    find_order db2 orderNo = Some order /\
    Order.Status order = OrderPaidSuccess /\
    Order.TradeNo order = tradeNo /\
    Order.UserId order = User.Id user /\
    Order.ProductId order = Product.Id product /\
    Order.Amount order = DecimalSub (Product.Price product) (Product.Discount product).
Proof.
  intros Hb Hp Hs Hu Hurl Hcreate Hfresh Hjson Hstored Hfo Hfu Hsu Hso db1 db2 credited.
  set (amount := DecimalSub (Product.Price product) (Product.Discount product)).
  set (o := Order.with_Id (next_order_id db) (new_order user product orderNo amount data)).
  assert (Hdb1 : db1 = insert_order (new_order user product orderNo amount data) db).
  { subst db1. rewrite (PayQrcode_past_checks h c prun db data product orderNo user
                          Hb Hp Hs Hu), Hurl.
    unfold Create_order. now rewrite Hcreate. }
  assert (Hfind1 : find_order db1 orderNo = Some o)
    by (rewrite Hdb1; now apply find_order_insert_order).
  assert (Hn : notify h nrun orderNo tradeNo db1
               = (None, settled_db h nrun o tradeNo stored (remark_of product) db1)).
  { apply notify_success.
    - unfold notify_fetch. rewrite Hfo. unfold First. now rewrite Hfind1.
    - simpl. discriminate.
    - rewrite Hfu, Hdb1. unfold First. simpl.
      unfold find_user in *. simpl. now rewrite Hstored.
    - exact Hjson.
    - exact Hsu.
    - exact Hso. }
  assert (Hu2 : find_user db2 (User.Id user) = Some (updated_user credited stored)).
  { subst db2. rewrite Hn. simpl.
    apply (settled_find_user h nrun o tradeNo stored (remark_of product) db1).
    rewrite Hdb1. unfold find_user in *. simpl. exact Hstored. }
  split; [now rewrite Hn|]. split; [exact Hu2|]. split.
  - intros Hpow Hexp. rewrite Hu2. f_equal.
    now apply (updated_user_credit h nrun (remark_of product) stored).
  - subst db2. rewrite Hn. simpl.
    destruct (settled_find_order h nrun o tradeNo stored (remark_of product) db1
                orderNo Hfind1) as (row & Hin & Hid & Hfind).
    assert (row = o).
    { rewrite Hdb1 in Hin. simpl in Hin. apply in_app_or in Hin as [Hin|[<-|[]]].
      - apply next_order_id_fresh in Hin. simpl in Hid. lia.
      - reflexivity. }
    subst row. eexists. split; [exact Hfind|]. simpl.
    rewrite !assign_Z_same, assign_float64_same.
    repeat split. unfold assign_string. now destruct (tradeNo =? "")%string eqn:E;
      [apply String.eqb_eq in E|].
Qed.

Lemma PayQrcode_order_settles_with_product_benefit_witness :
  let c := Fixture.pay_request (mkPayData "hupi" "wechat" 1) in
  let db1 := snd (PayQrcode Fixture.h_up c Fixture.creating Fixture.db0) in
  let db2 := snd (notify Fixture.h_up Fixture.calm "2001" "T9" db1) in
  let credited :=
    fst (fst (credit Fixture.h_up Fixture.calm (remark_of Fixture.vip_product)
                Fixture.alice)) in
  fst (notify Fixture.h_up Fixture.calm "2001" "T9" db1) = None /\
  find_user db2 (User.Id Fixture.alice) = Some (updated_user credited Fixture.alice) /\
  ((User.Power credited = 0 -> User.Power Fixture.alice = 0) ->
   (User.ExpiredTime credited = 0 -> User.ExpiredTime Fixture.alice = 0) ->
   find_user db2 (User.Id Fixture.alice) = Some credited) /\
  exists order,
    find_order db2 "2001" = Some order /\
    Order.Status order = OrderPaidSuccess /\
    Order.TradeNo order = "T9" /\
    Order.UserId order = User.Id Fixture.alice /\
    Order.ProductId order = Product.Id Fixture.vip_product /\
    Order.Amount order
    = DecimalSub (Product.Price Fixture.vip_product) (Product.Discount Fixture.vip_product).
Proof.
  intros c.
  apply (PayQrcode_order_settles_with_product_benefit Fixture.h_up c Fixture.creating
           Fixture.calm Fixture.db0 (mkPayData "hupi" "wechat" 1) Fixture.vip_product
           "2001" "T9" Fixture.notifyURL Fixture.alice Fixture.alice);
    reflexivity.
Defined.

(** ** More on [notify] *)

(** X15. A call of [notify] that returns an error has written no order,
    no product and no audit row; unless the failing call was the update
    of the order, it has written nothing at all. *)
Theorem notify_error_writes_no_order {RT : Runtime} (h : PaymentHandler)
  (run : NotifyRun) (orderNo tradeNo : string) (db : DB) (e : error) :
  fst (notify h run orderNo tradeNo db) = Some e ->
  let db' := snd (notify h run orderNo tradeNo db) in
  orders db' = orders db /\
  products db' = products db /\
  power_logs db' = power_logs db /\
  (fault_save_order run = None -> db' = db).
Proof.
  unfold notify.
  destruct (notify_fetch run orderNo db) as [e0|order]; [now repeat split|].
  unfold notify_locked.
  destruct (OrderStatus_eqb _ _); [discriminate|].
  destruct (First _ _) as [e0|user]; [now repeat split|].
  destruct (JsonDecode _) as [e0|remark]; [now repeat split|].
  destruct (credit h run remark user) as [[user' opt] power].
  unfold Updates_user, Updates_order.
  destruct (fault_save_user run); [now repeat split|].
  destruct (fault_save_order run); [|discriminate].
  intros _. simpl. repeat split. discriminate.
Qed.

Lemma notify_error_writes_no_order_witness :
  let run := mkNotifyRun Fixture.now Fixture.now Fixture.now Fixture.now
               None None None (Some "deadlock") None None in
  let db' := snd (notify Fixture.h_up run "1002" "T2" Fixture.db0) in
  orders db' = orders Fixture.db0 /\
  products db' = products Fixture.db0 /\
  power_logs db' = power_logs Fixture.db0 /\
  (fault_save_order run = None -> db' = Fixture.db0).
Proof.
  intros run.
  apply (notify_error_writes_no_order Fixture.h_up run "1002" "T2" Fixture.db0
           "error with update order info: deadlock").
  reflexivity.
Defined.

(** X16. The user row and the order row are written by separate calls.
    When the update of the order fails after the user row was updated
    from the credit, [notify] returns the error with the order still
    unpaid, and the next call that gets through credits the stored user
    a second time. *)
Theorem notify_retry_after_order_failure_credits_again {RT : Runtime}
  (h : PaymentHandler) (run1 run2 : NotifyRun) (orderNo tradeNo : string) (db : DB)
  (order : Order.t) (user : User.t) (remark : OrderRemark.t) (e : error) :
  notify_fetch run1 orderNo db = inr order ->
  Order.Status order <> OrderPaidSuccess ->
  First (fault_user run1) (find_user db (Order.UserId order)) = inr user ->
  JsonDecode (Order.Remark order) = inr remark ->
  fault_save_user run1 = None ->
  fault_save_order run1 = Some e ->
  fault_order run2 = None -> fault_user run2 = None ->
  fault_save_user run2 = None -> fault_save_order run2 = None ->
  let user1 := updated_user (fst (fst (credit h run1 remark user))) user in
  let db1 := snd (notify h run1 orderNo tradeNo db) in
  let db2 := snd (notify h run2 orderNo tradeNo db1) in
  fst (notify h run1 orderNo tradeNo db) = Some ("error with update order info: " ++ e) /\
  find_order db1 orderNo = Some order /\
  find_user db1 (Order.UserId order) = Some user1 /\
  fst (notify h run2 orderNo tradeNo db1) = None /\
  find_user db2 (Order.UserId order)
  = Some (updated_user (fst (fst (credit h run2 remark user1))) user1).
Proof.
  intros Hf Hs Hu Hd Hsu Hso Hfo2 Hfu2 Hsu2 Hso2 user1 db1 db2.
  pose proof (notify_fetch_inr _ _ _ _ Hf) as [_ Hfind].
  pose proof (First_inr _ _ _ Hu) as [_ Hfu].
  set (credited := fst (fst (credit h run1 remark user))) in *.
  assert (H1 : notify h run1 orderNo tradeNo db
               = (Some ("error with update order info: " ++ e), save_user credited db)).
  { unfold notify, notify_locked. rewrite Hf.
    pose proof Hs as Hs'. apply OrderStatus_eqb_neq in Hs'. rewrite Hs', Hu, Hd.
    subst credited. destruct (credit h run1 remark user) as [[u o] p].
    unfold Updates_user, Updates_order. now rewrite Hsu, Hso. }
  assert (Hu1 : find_user (save_user credited db) (Order.UserId order) = Some user1).
  { apply (find_user_save_user db _ user credited Hfu). apply credit_Id. }
  assert (H2 : notify h run2 orderNo tradeNo (save_user credited db)
               = (None, settled_db h run2 order tradeNo user1 remark
                          (save_user credited db))).
  { apply notify_success; auto.
    - unfold notify_fetch, First. rewrite Hfo2.
      unfold find_order in *. simpl. now rewrite Hfind.
    - now rewrite Hfu2, Hu1. }
  subst db2 db1. rewrite H1. simpl. rewrite H2. simpl.
  repeat split; auto.
  now apply settled_find_user.
Qed.

Lemma notify_retry_after_order_failure_credits_again_witness :
  let run1 := mkNotifyRun Fixture.now Fixture.now Fixture.now Fixture.now
                None None None (Some "deadlock") None None in
  let user1 :=
    updated_user (fst (fst (credit Fixture.h_up run1 Fixture.topup100 Fixture.alice)))
      Fixture.alice in
  let db1 := snd (notify Fixture.h_up run1 "1002" "T2" Fixture.db0) in
  let db2 := snd (notify Fixture.h_up Fixture.calm "1002" "T2" db1) in
  fst (notify Fixture.h_up run1 "1002" "T2" Fixture.db0)
  = Some ("error with update order info: " ++ "deadlock") /\
  find_order db1 "1002" = Some Fixture.o1002 /\
  find_user db1 (Order.UserId Fixture.o1002) = Some user1 /\
  fst (notify Fixture.h_up Fixture.calm "1002" "T2" db1) = None /\
  find_user db2 (Order.UserId Fixture.o1002)
  = Some (updated_user
            (fst (fst (credit Fixture.h_up Fixture.calm Fixture.topup100 user1))) user1).
Proof.
  intros run1.
  apply (notify_retry_after_order_failure_credits_again Fixture.h_up run1 Fixture.calm
           "1002" "T2" Fixture.db0 Fixture.o1002 Fixture.alice Fixture.topup100
           "deadlock");
    first [reflexivity | discriminate].
Defined.

(** At that input the user, who held 10, ends with 210 for one order of
    100 power. *)
Lemma retry_after_order_failure_doubles_the_credit :
  let run1 := mkNotifyRun Fixture.now Fixture.now Fixture.now Fixture.now
                None None None (Some "deadlock") None None in
  let db1 := snd (notify Fixture.h_up run1 "1002" "T2" Fixture.db0) in
  let db2 := snd (notify Fixture.h_up Fixture.calm "1002" "T2" db1) in
  option_map User.Power (find_user Fixture.db0 1) = Some 10 /\
  option_map User.Power (find_user db1 1) = Some 110 /\
  option_map User.Power (find_user db2 1) = Some 210.
Proof. vm_compute. repeat split; reflexivity. Qed.

Lemma find_user_save_other (db : DB) (id : Z) (u : User.t) :
  User.Id u <> id -> find_user (save_user u db) id = find_user db id.
Proof.
  intros Hid. unfold find_user, save_user. simpl.
  induction (users db) as [|r rs IH]; simpl; [reflexivity|].
  destruct (User.Id r =? User.Id u) eqn:Hr.
  - simpl. replace (User.Id r =? id) with false by (symmetry; lia).
    exact IH.
  - destruct (User.Id r =? id); [reflexivity|exact IH].
Qed.

Lemma find_product_sales_other (fault : option error) (db : DB) (id id' : Z) :
  id <> id' ->
  find_product (snd (UpdateColumn_sales fault id db)) id' = find_product db id'.
Proof.
  intros Hid. unfold UpdateColumn_sales. destruct fault; [reflexivity|].
  unfold find_product. simpl.
  induction (products db) as [|r rs IH]; simpl; [reflexivity|].
  destruct (Product.Id r =? id) eqn:Hr; simpl.
  - replace (Product.Id r =? id') with false by (symmetry; lia). exact IH.
  - destruct (Product.Id r =? id'); [reflexivity|exact IH].
Qed.

(** X17. A call of [notify] touches the user who owns the order and the
    product the order names, and no other: for every other user id and
    every other product id the stored row is the same before and after,
    whether the call succeeds or fails. *)
Theorem notify_writes_only_owner_and_product {RT : Runtime} (h : PaymentHandler)
  (run : NotifyRun) (orderNo tradeNo : string) (db : DB) (order : Order.t) :
  notify_fetch run orderNo db = inr order ->
  let db' := snd (notify h run orderNo tradeNo db) in
  (forall id, id <> Order.UserId order -> find_user db' id = find_user db id) /\
  (forall id, id <> Order.ProductId order -> find_product db' id = find_product db id).
Proof.
  intros Hf. unfold notify. rewrite Hf. unfold notify_locked.
  destruct (OrderStatus_eqb _ _); [now split|].
  destruct (First _ _) as [e0|user] eqn:Hu; [now split|].
  destruct (JsonDecode _) as [e0|remark]; [now split|].
  apply First_inr in Hu as [_ Hu]. apply find_user_key in Hu.
  pose proof (credit_Id h run remark user) as Hid.
  destruct (credit h run remark user) as [[user' opt] power]. simpl in Hid.
  unfold Updates_user, Updates_order.
  destruct (fault_save_user run); [now split|].
  destruct (fault_save_order run); simpl.
  - split; [|reflexivity]. intros id Hne. apply find_user_save_other. lia.
  - split.
    + intros id Hne.
      transitivity (find_user (save_user user' db) id);
        [|apply find_user_save_other; lia].
      unfold find_user.
      destruct (fault_sales run), (power >? 0), (fault_log run); reflexivity.
    + intros id Hne.
      transitivity
        (find_product
           (snd (UpdateColumn_sales (fault_sales run) (Order.ProductId order) db)) id);
        [|apply find_product_sales_other; congruence].
      unfold find_product.
      destruct (fault_sales run), (power >? 0), (fault_log run); reflexivity.
Qed.

Lemma notify_writes_only_owner_and_product_witness :
  let db' := snd (notify Fixture.h_up Fixture.calm "1002" "T2" Fixture.db0) in
  (forall id, id <> Order.UserId Fixture.o1002 ->
     find_user db' id = find_user Fixture.db0 id) /\
  (forall id, id <> Order.ProductId Fixture.o1002 ->
     find_product db' id = find_product Fixture.db0 id).
Proof.
  apply (notify_writes_only_owner_and_product Fixture.h_up Fixture.calm "1002" "T2"
           Fixture.db0 Fixture.o1002).
  reflexivity.
Defined.

Lemma find_order_save_other (db : DB) (orderNo no' : string) (order p : Order.t) :
  NoDup (map Order.Id (orders db)) ->
  find_order db orderNo = Some order ->
  Order.Id p = Order.Id order -> Order.OrderNo p = orderNo ->
  no' <> orderNo ->
  find_order (save_order p db) no' = find_order db no'.
Proof.
  intros Hnd Hf Hid Hno Hne.
  pose proof (find_order_key _ _ _ Hf) as Hk.
  pose proof (find_order_In _ _ _ Hf) as Hin.
  assert (Hsame : forall r, In r (orders db) -> Order.Id r = Order.Id order ->
                            (Order.OrderNo r =? no')%string = false).
  { intros r Hr E. rewrite (order_Id_inj (orders db) r order Hnd Hr Hin E).
    apply String.eqb_neq. congruence. }
  assert (Hp : (Order.OrderNo p =? no')%string = false)
    by (apply String.eqb_neq; congruence).
  unfold find_order, save_order. simpl. clear Hf Hin Hnd.
  induction (orders db) as [|r rs IH]; simpl; [reflexivity|].
  assert (IH' : find (fun o => (Order.OrderNo o =? no')%string)
                  (map (fun r0 => if Order.Id r0 =? Order.Id p
                                  then updated_order p r0 else r0) rs)
                = find (fun o => (Order.OrderNo o =? no')%string) rs).
  { apply IH. intros r0 Hr0. apply Hsame. now right. }
  destruct (Order.Id r =? Order.Id p) eqn:Hr.
  - simpl. unfold assign_string.
    rewrite (Hsame r) by (simpl; auto; lia).
    destruct (Order.OrderNo p =? "")%string;
      [rewrite (Hsame r) by (simpl; auto; lia)|rewrite Hp]; exact IH'.
  - destruct (Order.OrderNo r =? no')%string; [reflexivity|exact IH'].
Qed.

(** X18. On a store whose order ids are unique, a call of [notify] for
    one order number leaves the row of every other order number as it
    was. *)
Theorem notify_keeps_other_orders {RT : Runtime} (h : PaymentHandler)
  (run : NotifyRun) (orderNo tradeNo no' : string) (db : DB) :
  NoDup (map Order.Id (orders db)) ->
  no' <> orderNo ->
  find_order (snd (notify h run orderNo tradeNo db)) no' = find_order db no'.
Proof.
  intros Hnd Hne. unfold notify.
  destruct (notify_fetch run orderNo db) as [e0|order] eqn:Hf; [reflexivity|].
  apply notify_fetch_inr in Hf as [_ Hf].
  unfold notify_locked.
  destruct (OrderStatus_eqb _ _); [reflexivity|].
  destruct (First _ _) as [e0|user]; [reflexivity|].
  destruct (JsonDecode _) as [e0|remark]; [reflexivity|].
  destruct (credit h run remark user) as [[user' opt] power].
  unfold Updates_user, Updates_order.
  destruct (fault_save_user run); [reflexivity|].
  destruct (fault_save_order run); [reflexivity|].
  transitivity (find_order (save_order (paid_order run order tradeNo) db) no').
  - unfold find_order. simpl.
    destruct (fault_sales run), (power >? 0), (fault_log run); reflexivity.
  - apply (find_order_save_other db orderNo no' order); auto.
    simpl. now apply find_order_key in Hf.
Qed.

Lemma notify_keeps_other_orders_witness :
  find_order (snd (notify Fixture.h_up Fixture.calm "1002" "T2" Fixture.db0)) "1001"
  = find_order Fixture.db0 "1001".
Proof.
  apply (notify_keeps_other_orders Fixture.h_up Fixture.calm "1002" "T2" "1001"
           Fixture.db0).
  - simpl. repeat constructor; simpl; intros H;
      repeat (destruct H as [H|H]; try discriminate H); exact H.
  - discriminate.
Defined.

(** X19. With a non-negative configured bonus, a non-negative power in
    the remark and no overflow, the credit of lines 438-455 never lowers
    the user's power; it never clears [Vip] and keeps the user's id and
    name. *)
Theorem credit_never_takes_away {RT : Runtime} (h : PaymentHandler)
  (run : NotifyRun) (remark : OrderRemark.t) (user : User.t) :
  0 <= VipMonthPower h ->
  0 <= OrderRemark.Power remark ->
  - 2 ^ 63 <= User.Power user ->
  User.Power user + VipMonthPower h < 2 ^ 63 ->
  User.Power user + OrderRemark.Power remark < 2 ^ 63 ->
  let user' := fst (fst (credit h run remark user)) in
  User.Power user <= User.Power user' /\
  (User.Vip user = true -> User.Vip user' = true) /\
  User.Id user' = User.Id user /\
  User.Username user' = User.Username user.
Proof.
  intros Hb Hp Hlo Hhi1 Hhi2. unfold credit.
  destruct (OrderRemark.Days remark >? 0);
    [destruct (User.ExpiredTime user >=? now_expiry run)|]; simpl;
    repeat split; auto; try lia;
    rewrite int_add_exact; lia.
Qed.

Lemma credit_never_takes_away_witness :
  let user' := fst (fst (credit Fixture.h_up Fixture.calm Fixture.topup100 Fixture.alice)) in
  User.Power Fixture.alice <= User.Power user' /\
  (User.Vip Fixture.alice = true -> User.Vip user' = true) /\
  User.Id user' = User.Id Fixture.alice /\
  User.Username user' = User.Username Fixture.alice.
Proof.
  apply (credit_never_takes_away Fixture.h_up Fixture.calm Fixture.topup100
           Fixture.alice); simpl; lia.
Defined.

(** ** More on the notification endpoints *)

(** X20. A callback that does not pass verification changes nothing:
    when the form cannot be parsed, when the hupi trade check fails or
    when the alipay verification fails, the answer is "fail" and the
    store is as it was; a failed wechat verification leaves the store as
    it was too, and is not answered with "success". *)
Theorem unverified_callback_changes_nothing {RT : Runtime} (h : PaymentHandler)
  (c : gin.Context) (run : NotifyRun) (db : DB) :
  (gin.ParseForm c <> None ->
   HuPiPayNotify h c run db = (c_String StatusOK "fail", db) /\
   AlipayNotify h c run db = (c_String StatusOK "fail", db) /\
   PayJsNotify h c run db = (c_String StatusOK "fail", db) /\
   WechatPayNotify h c run db = (c_String StatusOK "fail", db)) /\
  (huPi_Check h (gin.Form_Get c "open_order_id") <> None ->
   HuPiPayNotify h c run db = (c_String StatusOK "fail", db)) /\
  (payment.Success (alipay_TradeVerify h c) = false ->
   AlipayNotify h c run db = (c_String StatusOK "fail", db)) /\
  (payment.Success (wechat_TradeVerify h c) = false ->
   snd (WechatPayNotify h c run db) = db /\
   fst (WechatPayNotify h c run db) <> c_String StatusOK "success").
Proof.
  unfold HuPiPayNotify, AlipayNotify, PayJsNotify, WechatPayNotify.
  split; [|split; [|split]].
  - intros Hp. destruct (gin.ParseForm c); [now repeat split|congruence].
  - intros Hc. destruct (gin.ParseForm c); [reflexivity|].
    destruct (huPi_Check h _); [reflexivity|congruence].
  - intros Hv. destruct (gin.ParseForm c); [reflexivity|]. now rewrite Hv.
  - intros Hv. destruct (gin.ParseForm c); [split; [reflexivity|discriminate]|].
    rewrite Hv. simpl. split; [reflexivity|discriminate].
Qed.

Lemma unverified_callback_changes_nothing_witness :
  let c := Fixture.callback [("trade_order_id", "1001"); ("out_trade_no", "1001")] in
  HuPiPayNotify Fixture.h_up c Fixture.calm Fixture.db0
  = (c_String StatusOK "fail", Fixture.db0) /\
  AlipayNotify Fixture.h_up c Fixture.calm Fixture.db0
  = (c_String StatusOK "fail", Fixture.db0) /\
  snd (WechatPayNotify Fixture.h_up c Fixture.calm Fixture.db0) = Fixture.db0.
Proof.
  intros c.
  destruct (unverified_callback_changes_nothing Fixture.h_up c Fixture.calm Fixture.db0)
    as (_ & Hhupi & Hali & Hwx).
  split; [apply Hhupi; discriminate|].
  split; [apply Hali; reflexivity|].
  apply Hwx. reflexivity.
Defined.

(** X21. The four endpoints differ in how they verify a callback and in
    nothing else: once verified, callbacks that name the same order and
    trade number get the same answer and leave the same store. *)
Theorem verified_endpoints_settle_alike {RT : Runtime} (h : PaymentHandler)
  (c : gin.Context) (run : NotifyRun) (db : DB) (orderNo tradeNo : string) :
  gin.ParseForm c = None ->
  gin.Form_Get c "trade_order_id" = orderNo ->
  gin.Form_Get c "open_order_id" = tradeNo ->
  huPi_Check h tradeNo = None ->
  payment.Success (alipay_TradeVerify h c) = true ->
  payment.VoOutTradeNo (alipay_TradeVerify h c) = orderNo ->
  gin.Form_Get c "trade_no" = tradeNo ->
  gin.Form_Get c "return_code" = "1" ->
  gin.Form_Get c "out_trade_no" = orderNo ->
  gin.Form_Get c "payjs_order_id" = tradeNo ->
  payment.Success (wechat_TradeVerify h c) = true ->
  payment.VoOutTradeNo (wechat_TradeVerify h c) = orderNo ->
  payment.TradeId (wechat_TradeVerify h c) = tradeNo ->
  AlipayNotify h c run db = HuPiPayNotify h c run db /\
  PayJsNotify h c run db = HuPiPayNotify h c run db /\
  WechatPayNotify h c run db = HuPiPayNotify h c run db /\
  snd (HuPiPayNotify h c run db) = snd (notify h run orderNo tradeNo db) /\
  (fst (HuPiPayNotify h c run db) = c_String StatusOK "success" <->
   fst (notify h run orderNo tradeNo db) = None).
Proof.
  intros Hp H1 H2 H3 H4 H5 H6 H7 H8 H9 H10 H11 H12.
  unfold AlipayNotify, PayJsNotify, WechatPayNotify, HuPiPayNotify.
  rewrite Hp, H1, H2, H3, H4, H5, H6, H7, H8, H9, H10, H11, H12. simpl.
  repeat split; destruct (notify h run orderNo tradeNo db) as [[e|] db']; simpl;
    try reflexivity; intros E; try discriminate E; reflexivity.
Qed.

Lemma verified_endpoints_settle_alike_witness :
  let c := Fixture.callback
             [("trade_order_id", "1001"); ("open_order_id", "T1");
              ("trade_status", "TRADE_SUCCESS"); ("out_trade_no", "1001");
              ("trade_no", "T1"); ("return_code", "1"); ("payjs_order_id", "T1")] in
  AlipayNotify Fixture.h_up c Fixture.calm Fixture.db0
  = HuPiPayNotify Fixture.h_up c Fixture.calm Fixture.db0 /\
  PayJsNotify Fixture.h_up c Fixture.calm Fixture.db0
  = HuPiPayNotify Fixture.h_up c Fixture.calm Fixture.db0 /\
  WechatPayNotify Fixture.h_up c Fixture.calm Fixture.db0
  = HuPiPayNotify Fixture.h_up c Fixture.calm Fixture.db0 /\
  snd (HuPiPayNotify Fixture.h_up c Fixture.calm Fixture.db0)
  = snd (notify Fixture.h_up Fixture.calm "1001" "T1" Fixture.db0) /\
  (fst (HuPiPayNotify Fixture.h_up c Fixture.calm Fixture.db0) = c_String StatusOK "success"
   <-> fst (notify Fixture.h_up Fixture.calm "1001" "T1" Fixture.db0) = None).
Proof.
  intros c.
  apply (verified_endpoints_settle_alike Fixture.h_up c Fixture.calm Fixture.db0
           "1001" "T1"); reflexivity.
Defined.

Lemma notify_reads_only_VipMonthPower {RT : Runtime} (h h' : PaymentHandler)
  (run : NotifyRun) (orderNo tradeNo : string) (db : DB) :
  VipMonthPower h = VipMonthPower h' ->
  notify h run orderNo tradeNo db = notify h' run orderNo tradeNo db.
Proof.
  intros E. unfold notify, notify_locked, credit. now rewrite E.
Qed.

(** X22. [PayJsNotify] settles on the form fields alone: no provider
    service is asked, so two handlers that differ only in their provider
    services and keys give the same answer and the same store for every
    callback. *)
Theorem PayJsNotify_asks_no_provider {RT : Runtime} (h h' : PaymentHandler)
  (c : gin.Context) (run : NotifyRun) (db : DB) :
  VipMonthPower h = VipMonthPower h' ->
  PayJsNotify h c run db = PayJsNotify h' c run db.
Proof.
  intros E. unfold PayJsNotify.
  now rewrite (notify_reads_only_VipMonthPower h h' run _ _ db E).
Qed.

Lemma PayJsNotify_asks_no_provider_witness :
  let c := Fixture.callback
             [("out_trade_no", "1001"); ("return_code", "1"); ("payjs_order_id", "T1")] in
  PayJsNotify Fixture.h_up c Fixture.calm Fixture.db0
  = PayJsNotify Fixture.h_down c Fixture.calm Fixture.db0.
Proof.
  intros c.
  apply (PayJsNotify_asks_no_provider Fixture.h_up Fixture.h_down c Fixture.calm
           Fixture.db0).
  reflexivity.
Defined.

(** ** [GetPayWays] and the pay ways the handlers take *)

(** X23. [GetPayWays] offers a pay way exactly when its configuration is
    enabled, and offers no pay way other than alipay, hupi, geek and
    wechat. *)
Theorem GetPayWays_offers_enabled (cfg : PayWaysConfig) (way : string) :
  In way (map fst (GetPayWays cfg)) <->
  (way = "alipay" /\ Alipay_Enabled cfg = true) \/
  (way = "hupi" /\ HuPi_Enabled cfg = true) \/
  (way = "geek" /\ Geek_Enabled cfg = true) \/
  (way = "wechat" /\ Wechat_Enabled cfg = true).
Proof.
  unfold GetPayWays.
  destruct (Alipay_Enabled cfg), (HuPi_Enabled cfg), (Geek_Enabled cfg),
    (Wechat_Enabled cfg); simpl; split; intros H;
    repeat match goal with
    | H : _ \/ _ |- _ => destruct H as [H|H]
    | H : _ /\ _ |- _ => destruct H as [? H]
    | H : False |- _ => contradiction
    | H : false = true |- _ => discriminate H
    end; subst; auto 12.
Qed.

(** X24. Every pay way that [GetPayWays] offers is one that [PayQrcode]
    has a notify URL for and that [PayQrcode] and [Mobile] do not turn
    down as unknown; with geek enabled, six pay types are offered for
    it. *)
Theorem offered_pay_ways_are_taken (cfg : PayWaysConfig) (h : PaymentHandler)
  (entry : string * string) :
  In entry (GetPayWays cfg) ->
  In (fst entry) ["hupi"; "geek"; "alipay"; "wechat"] /\
  PayQrcode_notifyURL h (fst entry) <> None /\
  (Geek_Enabled cfg = true ->
   map snd (filter (fun e => (fst e =? "geek")%string) (GetPayWays cfg))
   = ["alipay"; "wechat"; "qq"; "jd"; "douyin"; "paypal"]).
Proof.
  intros Hin. split; [|split].
  - assert (H : In (fst entry) (map fst (GetPayWays cfg))) by now apply in_map.
    apply GetPayWays_offers_enabled in H.
    destruct H as [[-> _]|[[-> _]|[[-> _]|[-> _]]]]; simpl; auto.
  - assert (H : In (fst entry) (map fst (GetPayWays cfg))) by now apply in_map.
    apply GetPayWays_offers_enabled in H.
    destruct H as [[-> _]|[[-> _]|[[-> _]|[-> _]]]]; discriminate.
  - intros Hgeek. unfold GetPayWays. rewrite Hgeek.
    destruct (Alipay_Enabled cfg), (HuPi_Enabled cfg), (Wechat_Enabled cfg);
      reflexivity.
Qed.

Lemma offered_pay_ways_are_taken_witness :
  let cfg := mkPayWaysConfig true false "wechat" true true in
  In ("geek", "qq") (GetPayWays cfg) /\
  In "geek" ["hupi"; "geek"; "alipay"; "wechat"] /\
  PayQrcode_notifyURL Fixture.h_up "geek" <> None /\
  (Geek_Enabled cfg = true ->
   map snd (filter (fun e => (fst e =? "geek")%string) (GetPayWays cfg))
   = ["alipay"; "wechat"; "qq"; "jd"; "douyin"; "paypal"]).
Proof.
  intros cfg.
  assert (Hin : In ("geek", "qq") (GetPayWays cfg)) by (simpl; auto).
  split; [exact Hin|].
  exact (offered_pay_ways_are_taken cfg Fixture.h_up ("geek", "qq") Hin).
Defined.

(** ** The mutex *)

(** X25. However the callbacks are scheduled, [h.lock] admits one of them
    at a time: in every state that a schedule reaches from callbacks that
    have all just been called, at most one worker is in the locked part,
    and the lock is held exactly when one is. *)
Theorem lock_admits_one_worker {RT : Runtime} (h : PaymentHandler)
  (calls : list (string * string)) (db : DB) (schedule : list (nat * NotifyRun))
  (s : System) :
  exec h schedule
    (mkSystem db false (map (fun call => Called (fst call) (snd call)) calls))
  = Some s ->
  (lock_holders s <= 1)%nat /\ lock_consistent s.
Proof.
  intros Hexec.
  assert (Hinv : lock_consistent s).
  { refine (exec_keeps_lock_consistent h schedule _ s _ Hexec).
    left. split; [reflexivity|]. unfold lock_holders. simpl. clear Hexec.
    induction calls as [|call calls IH]; simpl; [reflexivity|exact IH]. }
  split; [|exact Hinv].
  destruct Hinv as [[_ H]|[_ H]]; lia.
Qed.

Lemma lock_admits_one_worker_witness :
  let schedule := [(0, Fixture.calm); (1, Fixture.calm); (0, Fixture.calm)]%nat in
  let s := mkSystem Fixture.db0 true
             [Locked Fixture.o1002 "T2"; Fetched Fixture.o1001 "T1"] in
  (lock_holders s <= 1)%nat /\ lock_consistent s.
Proof.
  intros schedule s.
  apply (lock_admits_one_worker Fixture.h_up [("1002", "T2"); ("1001", "T1")]
           Fixture.db0 schedule s).
  vm_compute. reflexivity.
Defined.
